(** * sddm: SPF, DKIM, DMARC and MX record checks over DNS-over-HTTPS

    A shallow embedding of the four validators of the package
    ([checkDkim], [checkSpf], [checkDmarc], [checkMx]) together with the
    string primitives of the host language they are written with, followed by
    the properties established about them.

    Conventions of the embedding.
    - A string is a sequence of code units.  [string] of the Standard Library
      carries the code units 0..255, the Latin-1 range, on which
      [toLowerCase] and [trim] below follow ECMAScript exactly.
    - [googleDnsService.get] is the one external collaborator.  It is a
      parameter of every validator: a function from the request path to either
      a response body or a rejection.
    - A validator is an [async] function.  Its embedding returns an
      [outcome]: [Ret] for a resolved promise, [Throw] for a rejected one. *)

From Stdlib Require Import String Ascii List ZArith Lia Bool Arith Permutation.
From Stdlib Require Import Decimal DecimalString DecimalNat.
Import ListNotations.
Open Scope string_scope.

(** ** Strings of the host language *)

Module Js.

Local Open Scope nat_scope.

Definition code (c : ascii) : nat := nat_of_ascii c.

(** The double quote, code unit 34, and the tabulation, code unit 9. *)
Definition dquote : ascii := ascii_of_nat 34.
Definition tab : ascii := ascii_of_nat 9.

(** WhiteSpace and LineTerminator code units below 256: TAB, LF, VT, FF,
    CR, SP and NBSP. *)
Definition isWhiteSpace (c : ascii) : bool :=
  let n := code c in
  ((9 <=? n) && (n <=? 13)) || (n =? 32) || (n =? 160).

Definition isUpper (c : ascii) : bool :=
  let n := code c in
  ((65 <=? n) && (n <=? 90))
  || ((192 <=? n) && (n <=? 222) && negb (n =? 215)).

Definition lowerChar (c : ascii) : ascii :=
  if isUpper c then ascii_of_nat (code c + 32) else c.

(** [s.toLowerCase()] *)
Fixpoint toLowerCase (s : string) : string :=
  match s with
  | EmptyString => EmptyString
  | String c s' => String (lowerChar c) (toLowerCase s')
  end.

(** Every code unit of [s] satisfies [p]. *)
Fixpoint allChars (p : ascii -> bool) (s : string) : bool :=
  match s with
  | EmptyString => true
  | String c s' => p c && allChars p s'
  end.

(** [s.startsWith(p)] *)
Definition startsWith (s p : string) : bool := String.prefix p s.

(** [s.includes(sub)] *)
Fixpoint includes (s sub : string) : bool :=
  if String.prefix sub s then true
  else match s with
       | EmptyString => false
       | String _ s' => includes s' sub
       end.

(** [s.substring(n)] for [0 <= n]. *)
Fixpoint substringFrom (n : nat) (s : string) : string :=
  match n, s with
  | O, _ => s
  | S _, EmptyString => EmptyString
  | S n', String _ s' => substringFrom n' s'
  end.

(** [s.substring(0, n)] for [0 <= n]. *)
Fixpoint substringTo (n : nat) (s : string) : string :=
  match n, s with
  | O, _ => EmptyString
  | S _, EmptyString => EmptyString
  | S n', String c s' => String c (substringTo n' s')
  end.

Fixpoint trimStart (s : string) : string :=
  match s with
  | EmptyString => EmptyString
  | String c s' => if isWhiteSpace c then trimStart s' else s
  end.

Fixpoint trimEnd (s : string) : string :=
  match s with
  | EmptyString => EmptyString
  | String c s' =>
      match trimEnd s' with
      | EmptyString => if isWhiteSpace c then EmptyString
                       else String c EmptyString
      | t => String c t
      end
  end.

(** [s.trim()] *)
Definition trim (s : string) : string := trimEnd (trimStart s).

(** [s.split(sep)] for a separator of one code unit. *)
Fixpoint split (sep : ascii) (s : string) : list string :=
  match s with
  | EmptyString => [EmptyString]
  | String c s' =>
      if Ascii.eqb c sep then EmptyString :: split sep s'
      else match split sep s' with
           | [] => [String c EmptyString]
           | t :: ts => String c t :: ts
           end
  end.

(** Truthiness of a string: [filter((m) => m)] keeps the non-empty ones. *)
Definition truthy (s : string) : bool :=
  match s with EmptyString => false | _ => true end.

Definition isQuote (c : ascii) : bool :=
  Ascii.eqb c "'"%char || Ascii.eqb c dquote.

(** [s.replace(re, empty)] for the global pattern that matches one single
    or double quote: every quote is removed. *)
Fixpoint removeQuotes (s : string) : string :=
  match s with
  | EmptyString => EmptyString
  | String c s' =>
      if isQuote c then removeQuotes s' else String c (removeQuotes s')
  end.

(** Removal of one final code unit [d]: a replace by the empty string of
    the pattern that matches [d] at the end of the input. *)
Fixpoint dropFinal (d : ascii) (s : string) : string :=
  match s with
  | EmptyString => EmptyString
  | String c EmptyString =>
      if Ascii.eqb c d then EmptyString else s
  | String c s' => String c (dropFinal d s')
  end.

(** [s.replace(re, empty)] for the global pattern with two alternatives,
    a double quote at the start of the input or a double quote at its end:
    each alternative matches at most once, the first at the start and the
    second at the end of what is left. *)
Definition stripOuterQuotes (s : string) : string :=
  match s with
  | String c s' =>
      if Ascii.eqb c dquote then dropFinal dquote s'
      else dropFinal dquote s
  | EmptyString => EmptyString
  end.

(** [s.replace(re, empty)] for the pattern that matches a dot at the end
    of the input. *)
Definition stripTrailingDot (s : string) : string := dropFinal "."%char s.

(** A number as [parseInt] produces it.  A number of the host language is
    a double: it holds every integer up to 2^53 in magnitude and rounds the
    others.
    - [NaN];
    - [Int z]: the integer [z], held exactly (the sign of a zero is not
      kept);
    - [Beyond z]: the double that the integer [z], of magnitude above 2^53,
      is rounded to.  Which double it is, a rounded integer or an infinity,
      is not modelled: nothing is stated of its value but its order with
      respect to the integers that are held exactly. *)
Inductive number : Type :=
| NaN
| Int (z : Z)
| Beyond (z : Z).

(** 2^53, the largest magnitude up to which every integer is a double. *)
Definition maxExact : Z := 9007199254740992.

(** The number made of a mathematical integer. *)
Definition toNumber (z : Z) : number :=
  if (Z.abs z <=? maxExact)%Z then Int z else Beyond z.

Definition isDigit (c : ascii) : bool :=
  let n := code c in (48 <=? n) && (n <=? 57).

Local Close Scope nat_scope.

Definition digitValue (c : ascii) : Z := Z.of_nat (code c - 48).

(** The longest prefix of decimal digits, read most significant first. *)
Fixpoint readDigits (acc : option Z) (s : string) : option Z :=
  match s with
  | EmptyString => acc
  | String c s' =>
      if isDigit c then
        readDigits
          (Some (10 * match acc with Some a => a | None => 0 end
                 + digitValue c)%Z) s'
      else acc
  end.

(** The mathematical integer that [parseInt(s, 10)] reads: leading white
    space is skipped, one sign is accepted, the digits that follow are read,
    and anything after them is ignored.  There is none when no digit
    follows. *)
Definition readInteger (s : string) : option Z :=
  let t := trimStart s in
  let '(neg, body) :=
    match t with
    | String c t' =>
        if Ascii.eqb c "-"%char then (true, t')
        else if Ascii.eqb c "+"%char then (false, t')
        else (false, t)
    | EmptyString => (false, t)
    end in
  match readDigits None body with
  | None => None
  | Some v => Some (if neg then - v else v)%Z
  end.

(** [parseInt(s, 10)]: [NaN] when no integer is read, and otherwise the
    number made of the integer read. *)
Definition parseInt10 (s : string) : number :=
  match readInteger s with
  | None => NaN
  | Some z => toNumber z
  end.

Definition isNaN (x : number) : bool :=
  match x with NaN => true | Int _ | Beyond _ => false end.

(** [x < k] and [x > k] for an integer [k] of magnitude at most 2^53.
    Every comparison with [NaN] is false.  Rounding keeps the order and
    leaves 2^53 and its opposite where they are, so a number beyond them
    compares with [k] as the integer it was made of. *)
Definition ltb (x : number) (k : Z) : bool :=
  match x with
  | NaN => false
  | Int z | Beyond z => (z <? k)%Z
  end.

Definition gtb (x : number) (k : Z) : bool :=
  match x with
  | NaN => false
  | Int z | Beyond z => (k <? z)%Z
  end.

End Js.

(** ** Promises and the resolver *)

Inductive error : Type :=
| TypeError (message : string)
| Rejected (message : string).

(** The settled state of the promise an [async] function returns. *)
Inductive outcome (A : Type) : Type :=
| Ret (a : A)
| Throw (e : error).

Arguments Ret {A} a.
Arguments Throw {A} e.

Definition bind {A B : Type} (m : outcome A) (k : A -> outcome B) : outcome B :=
  match m with
  | Ret a => k a
  | Throw e => Throw e
  end.

Notation "x <- m ;; k" := (bind m (fun x => k))
  (at level 61, m at next level, right associativity).

Fixpoint mapM {A B : Type} (f : A -> outcome B) (l : list A)
  : outcome (list B) :=
  match l with
  | [] => Ret []
  | a :: l' => b <- f a ;; bs <- mapM f l' ;; Ret (b :: bs)
  end.

Module Doh.

(** One answer of the JSON body; the validators read its [data] only. *)
Record AnswerRecord : Type := { data : string }.

(** [response.data].  A field the body does not carry is [None]. *)
Record ResponseData : Type := {
  Status : option Z;
  Answer : option (list AnswerRecord)
}.

(** [googleDnsService.get]: the request path to the body, or a rejection
    that the validators let through. *)
Definition Resolver : Type := string -> outcome ResponseData.

(** [Status !== 0] *)
Definition statusNotZero (r : ResponseData) : bool :=
  match Status r with
  | Some 0%Z => false
  | _ => true
  end.

End Doh.

(** ** dkim.ts *)

Module Dkim.
Import Doh.

Definition commonDkimSelectors : list string :=
  [ "google"; "selector1"; "selector2"; "k1"; "k2"; "ctct1"; "ctct2"; "sm";
    "s1"; "s2"; "sig1"; "litesrv"; "zendesk1"; "zendesk2"; "mail"; "email";
    "dkim"; "default" ].

(** [dkimSelectorsForProviders[provider]] as far as the loop of
    [checkDkim] can use it: the two own properties are arrays; any other
    key gives [undefined] or a member inherited from [Object.prototype],
    none of which is iterable. *)
Definition dkimSelectorsForProviders (provider : string)
  : option (list string) :=
  if String.eqb provider "google" then Some ["google"]
  else if String.eqb provider "microsoft" then Some ["selector1"; "selector2"]
  else None.

Record DkimValidationResult : Type := {
  isValid : option bool;
  reason : string
}.

Record DkimCheckResult : Type := {
  checkIsValid : bool;
  checkReason : string;
  dkimSelectors : option (list string)
}.

Definition truncateRecord (record : string) (maxLength : nat) : string :=
  if (String.length record <=? maxLength)%nat then record
  else Js.substringTo maxLength record ++ "...".

Definition isValidDkimRecord (record : string) : bool :=
  let cleanRecord := Js.removeQuotes record in
  let parts := map Js.trim (Js.split ";"%char cleanRecord) in
  let hasVersion := existsb (fun part => Js.startsWith part "v=DKIM1") parts in
  let hasKey := existsb (fun part => Js.startsWith part "k=") parts in
  let hasPublicKey :=
    existsb (fun part =>
               if negb (Js.startsWith part "p=") then false
               else
                 let publicKey := Js.trim (Js.substringFrom 2 part) in
                 (0 <? String.length publicKey)%nat) parts in
  hasVersion && hasKey && hasPublicKey.

(** The request path of a selector probe, the template literal of
    [validateDkimForSelector]. *)
Definition requestPath (domain selector : string) : string :=
  "/resolve?name=" ++ selector ++ "._domainkey." ++ domain ++ "&type=TXT".

Definition validateDkimForSelector
  (get : Resolver) (domain selector : string)
  : outcome DkimValidationResult :=
  response <- get (requestPath domain selector) ;;
  match Answer response with
  | None | Some [] =>
      Ret {| isValid := None;
             reason := "No DKIM records found for selector " ++ selector |}
  | Some dkimRecords =>
      let validDkimRecords :=
        filter (fun record =>
                  Js.includes (Js.toLowerCase (data record)) "v=dkim1")
               dkimRecords in
      if (1 <? length validDkimRecords)%nat then
        Ret {| isValid := Some false;
               reason := "Multiple DKIM records found for selector "
                         ++ selector |}
      else
        match validDkimRecords with
        | [] =>
            Ret {| isValid := Some false;
                   reason := "No valid DKIM records found for selector "
                             ++ selector |}
        | first :: _ =>
            let record := data first in
            if negb (isValidDkimRecord record) then
              Ret {| isValid := Some false;
                     reason := "Invalid DKIM record format for selector "
                               ++ selector ++ " - "
                               ++ truncateRecord record 50 |}
            else
              Ret {| isValid := Some true; reason := "All checks passed" |}
        end
  end.

(** [Map.prototype.set] on a map kept in insertion order: a key already
    present keeps its place and takes the new value. *)
Fixpoint mapSet (key value : string) (m : list (string * string))
  : list (string * string) :=
  match m with
  | [] => [(key, value)]
  | (k, v) :: m' =>
      if String.eqb k key then (k, value) :: m'
      else (k, v) :: mapSet key value m'
  end.

(** The selector list of a call: [provider ? table[provider] : common].
    An absent argument and the empty string are both falsy.  A value that
    is not iterable makes the header of the [for ... of] loop throw, before
    the first probe. *)
Definition selectorsToCheck (provider : option string)
  : outcome (list string) :=
  match provider with
  | None => Ret commonDkimSelectors
  | Some p =>
      if Js.truthy p then
        match dkimSelectorsForProviders p with
        | Some selectors => Ret selectors
        | None => Throw (TypeError "selectorsToCheck is not iterable")
        end
      else Ret commonDkimSelectors
  end.

(** The body of [checkDkim] from the loop on, with the map of the valid
    selectors found so far. *)
Fixpoint checkDkimFrom (get : Resolver) (domain : string)
  (selectors : list string) (foundValidSelectors : list (string * string))
  : outcome DkimCheckResult :=
  match selectors with
  | [] =>
      if (0 <? length foundValidSelectors)%nat then
        Ret {| checkIsValid := true;
               checkReason := "DKIM records found";
               dkimSelectors := Some (map fst foundValidSelectors) |}
      else
        Ret {| checkIsValid := false;
               checkReason := "No valid DKIM records found";
               dkimSelectors := None |}
  | selector :: rest =>
      result <- validateDkimForSelector get domain selector ;;
      match isValid result with
      | Some true =>
          checkDkimFrom get domain rest
            (mapSet selector (reason result) foundValidSelectors)
      | Some false =>
          if negb (Js.includes (reason result) "No DKIM records found")
             && negb (Js.includes (reason result)
                        "No valid DKIM records found")
          then Ret {| checkIsValid := false;
                      checkReason := reason result;
                      dkimSelectors := None |}
          else checkDkimFrom get domain rest foundValidSelectors
      | None => checkDkimFrom get domain rest foundValidSelectors
      end
  end.

Definition checkDkim (get : Resolver) (domain : string)
  (provider : option string) : outcome DkimCheckResult :=
  selectors <- selectorsToCheck provider ;;
  checkDkimFrom get domain selectors [].

End Dkim.

(** ** spf.ts *)

Module Spf.
Import Doh.

Record SpfCheckResult : Type := {
  isValid : bool;
  reason : string;
  spf : option string
}.

(** The mechanism tokens of a record: what follows its first six code
    units, trimmed, split on spaces, empty tokens dropped. *)
Definition mechanisms (spfRecord : string) : list string :=
  filter Js.truthy
    (Js.split " "%char (Js.trim (Js.substringFrom 6 spfRecord))).

Definition isQualifier (c : ascii) : bool :=
  Ascii.eqb c "+"%char || Ascii.eqb c "-"%char
  || Ascii.eqb c "?"%char || Ascii.eqb c "~"%char.

(** The token without its qualifier, [mech] in the source. *)
Definition skipQualifier (mechanism : string) : string :=
  if Js.startsWith mechanism "+" || Js.startsWith mechanism "-"
     || Js.startsWith mechanism "?" || Js.startsWith mechanism "~"
  then Js.substringFrom 1 mechanism
  else mechanism.

(** The two branches of the loop body that increment [lookups]. *)
Definition requiresLookup (mech : string) : bool :=
  if Js.startsWith mech "include:" || Js.startsWith mech "a:"
     || Js.startsWith mech "mx:" || Js.startsWith mech "ptr:"
     || Js.startsWith mech "exists:" || Js.startsWith mech "redirect="
  then true
  else if String.eqb mech "a" || String.eqb mech "mx" then true
  else false.

(** The loop of [countDnsLookups] over the tokens, from [lookups = 0]. *)
Definition lookupsOf (mechanisms : list string) : nat :=
  fold_left
    (fun lookups mechanism =>
       if requiresLookup (skipQualifier mechanism) then S lookups
       else lookups)
    mechanisms 0.

Definition countDnsLookups (spfRecord : string) : nat :=
  lookupsOf (mechanisms spfRecord).

Definition isSpfRecord (record : AnswerRecord) : bool :=
  let txt := Js.stripOuterQuotes (data record) in
  Js.startsWith (Js.toLowerCase txt) "v=spf1".

(** The request path, the template literal of [checkSpf]. *)
Definition requestPath (domain : string) : string :=
  "/resolve?name=" ++ domain ++ "&type=TXT".

Definition checkSpf (get : Resolver) (domain : string)
  : outcome SpfCheckResult :=
  response <- get (requestPath domain) ;;
  if statusNotZero response then
    Ret {| isValid := false;
           reason := "DNS query failed or returned an error status";
           spf := None |}
  else
    match Answer response with
    | None | Some [] =>
        Ret {| isValid := false; reason := "No TXT records found";
               spf := None |}
    | Some answer =>
        let spfRecords := filter isSpfRecord answer in
        if (1 <? length spfRecords)%nat then
          Ret {| isValid := false; reason := "Multiple SPF records found";
                 spf := None |}
        else
          match spfRecords with
          | [first] =>
              let spfText := Js.stripOuterQuotes (data first) in
              if (10 <? countDnsLookups spfText)%nat then
                Ret {| isValid := false;
                       reason := "Too many DNS lookups (exceeds 10)";
                       spf := None |}
              else
                Ret {| isValid := true; reason := "Valid SPF record";
                       spf := Some spfText |}
          | _ =>
              Ret {| isValid := false; reason := "No SPF record found";
                     spf := None |}
          end
    end.

End Spf.

(** ** The aggregation of the probes in the words of the specification

    These definitions follow the description of the DKIM validator given by
    the specification; they are compared with [Dkim.checkDkim] below. *)

Module DkimSpec.
Import Doh.

(** What a selector can turn out to be. *)
Inductive probe : Type :=
| Found
| NotFound
| NoneTagged
| Ambiguous
| Malformed (record : string).

(** No answers at all: not found.  The answers are filtered to those that
    carry the version tag in any case; more than one is ambiguous, exactly
    one is validated. *)
Definition classify (answer : option (list AnswerRecord)) : probe :=
  match answer with
  | None | Some [] => NotFound
  | Some records =>
      match filter (fun record =>
                      Js.includes (Js.toLowerCase (data record)) "v=dkim1")
                   records with
      | [] => NoneTagged
      | [one] =>
          if Dkim.isValidDkimRecord (data one) then Found
          else Malformed (data one)
      | _ => Ambiguous
      end
  end.

(** The reason of an immediate failure. *)
Definition failureReason (selector : string) (p : probe) : option string :=
  match p with
  | Ambiguous => Some ("Multiple DKIM records found for selector " ++ selector)
  | Malformed record =>
      Some ("Invalid DKIM record format for selector " ++ selector ++ " - "
            ++ Dkim.truncateRecord record 50)
  | _ => None
  end.

(** The first immediate failure in the order of the selectors; otherwise
    success with the valid selectors, if any; otherwise the failure of the
    missing records. *)
Fixpoint aggregate (probes : list (string * probe)) (valid : list string)
  : Dkim.DkimCheckResult :=
  match probes with
  | [] =>
      match valid with
      | [] => {| Dkim.checkIsValid := false;
                 Dkim.checkReason := "No valid DKIM records found";
                 Dkim.dkimSelectors := None |}
      | _ => {| Dkim.checkIsValid := true;
                Dkim.checkReason := "DKIM records found";
                Dkim.dkimSelectors := Some valid |}
      end
  | (selector, p) :: rest =>
      match failureReason selector p with
      | Some reason => {| Dkim.checkIsValid := false;
                          Dkim.checkReason := reason;
                          Dkim.dkimSelectors := None |}
      | None =>
          match p with
          | Found => aggregate rest (valid ++ [selector])
          | _ => aggregate rest valid
          end
      end
  end.

(** What the selector turns out to be with a given resolver. *)
Definition probeOf (get : Resolver) (domain selector : string) : probe :=
  match get (Dkim.requestPath domain selector) with
  | Ret response => classify (Answer response)
  | Throw _ => NotFound
  end.

(** The reason of an immediate failure holds neither of the two word
    groups by which the loop of the source recognises a missing record. *)
Definition reasonIsPlain (selector : string) (p : probe) : bool :=
  match failureReason selector p with
  | Some reason =>
      negb (Js.includes reason "No DKIM records found")
      && negb (Js.includes reason "No valid DKIM records found")
  | None => true
  end.

End DkimSpec.

(** ** The lookup count in the words of the specification

    These definitions follow the description of the count given by the
    specification, not the source; they are compared with [Spf] below. *)

Module SpfSpec.

(** Strip one leading qualifier character from a token. *)
Definition stripQualifier (token : string) : string :=
  match token with
  | String c rest => if Spf.isQualifier c then rest else token
  | EmptyString => token
  end.

(** The token is exactly [a] or [mx], or begins with one of the six
    listed prefixes. *)
Definition incursLookup (token : string) : bool :=
  String.eqb token "a" || String.eqb token "mx"
  || String.prefix "include:" token || String.prefix "a:" token
  || String.prefix "mx:" token || String.prefix "ptr:" token
  || String.prefix "exists:" token || String.prefix "redirect=" token.

Definition countTokens (tokens : list string) : nat :=
  length (filter (fun token => incursLookup (stripQualifier token)) tokens).

(** As stated: strip the six characters of the prefix, split on spaces,
    strip the qualifiers, count. *)
Definition lookupCountAsStated (spfRecord : string) : nat :=
  countTokens (Js.split " "%char (Js.substringFrom 6 spfRecord)).

(** The same with the white space around the remainder trimmed before the
    split. *)
Definition lookupCountTrimmed (spfRecord : string) : nat :=
  countTokens (Js.split " "%char (Js.trim (Js.substringFrom 6 spfRecord))).

(** The transformations of a token list under which the count is claimed
    invariant: a permutation of the tokens, a qualifier put in front of a
    mechanism that incurs a lookup, and the removal of such a qualifier. *)
Inductive tokenStep : list string -> list string -> Prop :=
| step_permute (l l' : list string) :
    Permutation l l' -> tokenStep l l'
| step_add_qualifier (l1 l2 : list string) (q : ascii) (m : string) :
    Spf.isQualifier q = true -> incursLookup m = true ->
    tokenStep (l1 ++ m :: l2) (l1 ++ String q m :: l2)
| step_remove_qualifier (l1 l2 : list string) (q : ascii) (m : string) :
    Spf.isQualifier q = true -> incursLookup m = true ->
    tokenStep (l1 ++ String q m :: l2) (l1 ++ m :: l2).

(** Any number of such steps. *)
Inductive tokenSteps : list string -> list string -> Prop :=
| steps_refl (l : list string) : tokenSteps l l
| steps_step (l l' l'' : list string) :
    tokenStep l l' -> tokenSteps l' l'' -> tokenSteps l l''.

(** The tokens written one after the other, one space before each. *)
Fixpoint spaced (tokens : list string) : string :=
  match tokens with
  | [] => EmptyString
  | token :: rest => String " "%char (token ++ spaced rest)
  end.

(** The record made of the version and of the tokens. *)
Definition recordOf (tokens : list string) : string :=
  "v=spf1" ++ spaced tokens.

(** A token as an SPF record holds them: not empty, no white space in it. *)
Definition isTerm (token : string) : bool :=
  Js.truthy token
  && Js.allChars (fun c => negb (Js.isWhiteSpace c)) token.

End SpfSpec.

(** ** dmarc.ts *)

Module Dmarc.
Import Doh.

Record DmarcCheckResult : Type := {
  isValid : bool;
  reason : string;
  dmarc : option string
}.

(** The request path, the template literal of [checkDmarc]. *)
Definition requestPath (domain : string) : string :=
  "/resolve?name=_dmarc." ++ domain ++ "&type=TXT".

(** The [try] block of the source holds string operations only, none of
    which throws on a string: its [catch] branch is never entered and has
    no counterpart here. *)
Definition checkDmarc (get : Resolver) (domain : string)
  : outcome DmarcCheckResult :=
  response <- get (requestPath domain) ;;
  if statusNotZero response then
    Ret {| isValid := false;
           reason := "DNS query failed or returned an error status";
           dmarc := None |}
  else
    match Answer response with
    | None | Some [] =>
        Ret {| isValid := false; reason := "No TXT records found";
               dmarc := None |}
    | Some answer =>
        let dmarcRecords :=
          filter (fun record =>
                    Js.includes (Js.toLowerCase (data record)) "v=dmarc1")
                 answer in
        match dmarcRecords with
        | [] =>
            Ret {| isValid := false;
                   reason := "No valid DMARC record found";
                   dmarc := None |}
        | first :: others =>
            if (1 <? length dmarcRecords)%nat then
              Ret {| isValid := false;
                     reason := "Multiple DMARC records found";
                     dmarc := None |}
            else
              let dmarcRecord := Js.removeQuotes (data first) in
              let isDmarcValid :=
                Js.startsWith (Js.toLowerCase dmarcRecord) "v=dmarc1"
                && Js.includes (Js.toLowerCase dmarcRecord) "p="
                && Js.includes (Js.toLowerCase dmarcRecord) "rua=" in
              if negb isDmarcValid then
                Ret {| isValid := false;
                       reason := "Invalid DMARC record format - missing required tags (v=DMARC1, p=, rua=)";
                       dmarc := None |}
              else
                Ret {| isValid := true; reason := "Valid DMARC record";
                       dmarc := Some dmarcRecord |}
        end
    end.

End Dmarc.

(** ** mx.ts *)

Module Mx.
Import Doh.

Record MxEntry : Type := {
  preference : Js.number;
  exchange : string
}.

Record MxCheckResult : Type := {
  isValid : bool;
  reason : string;
  mx : option (list MxEntry)
}.

(** The callback of [data.Answer.map].  The array pattern binds the first
    two elements of the split; with fewer than two, [exchange] is
    [undefined] and the call of [toLowerCase] on it throws. *)
Definition parseAnswer (answer : AnswerRecord) : outcome MxEntry :=
  match Js.split " "%char (data answer) with
  | preference :: exchange :: _ =>
      Ret {| preference := Js.parseInt10 preference;
             exchange := Js.stripTrailingDot (Js.toLowerCase exchange) |}
  | _ =>
      Throw (TypeError
               "Cannot read properties of undefined (reading 'toLowerCase')")
  end.

(** [new Set(values).size]: the number of distinct values. *)
Definition setSize (values : list string) : nat :=
  length (nodup string_dec values).

Definition isAsciiDigit (c : ascii) : bool := Js.isDigit c.

Definition isAlnum (c : ascii) : bool :=
  let n := Js.code c in
  (((97 <=? n) && (n <=? 122)) || ((65 <=? n) && (n <=? 90))
   || ((48 <=? n) && (n <=? 57)))%nat.

Fixpoint lastChar (s : string) : option ascii :=
  match s with
  | EmptyString => None
  | String c EmptyString => Some c
  | String _ s' => lastChar s'
  end.

(** The pattern of four groups of one to three digits joined by dots,
    anchored at both ends. *)
Definition isDottedQuad (s : string) : bool :=
  match Js.split "."%char s with
  | [a; b; c; d] =>
      forallb (fun g => (1 <=? String.length g)%nat
                        && (String.length g <=? 3)%nat
                        && Js.allChars isAsciiDigit g) [a; b; c; d]
  | _ => false
  end.

(** One label of the host name pattern: an alphanumeric, then optionally
    up to 61 alphanumerics or hyphens and one alphanumeric. *)
Definition isLabel (l : string) : bool :=
  match l, lastChar l with
  | String c rest, Some z =>
      isAlnum c && isAlnum z && (String.length l <=? 63)%nat
      && Js.allChars (fun x => isAlnum x || Ascii.eqb x "-"%char) rest
  | _, _ => false
  end.

(** The host name pattern, anchored at both ends: labels joined by dots. *)
Definition isHostname (s : string) : bool :=
  forallb isLabel (Js.split "."%char s).


(** The request path, the template literal of [checkMx]. *)
Definition requestPath (domain : string) : string :=
  "/resolve?name=" ++ domain ++ "&type=MX".

Section WithNumberToString.

(** The conversion of a number to text made by the template literal of
    the preference message. *)
Variable numberToString : Js.number -> string.

(** The loop that validates each record; the first failing test of the
    first failing record returns. *)
Fixpoint validateRecords (records : list MxEntry) (all : list MxEntry)
  : MxCheckResult :=
  match records with
  | [] =>
      {| isValid := true; reason := "All MX records are valid";
         mx := Some all |}
  | record :: rest =>
      if Js.isNaN (preference record)
         || Js.ltb (preference record) 0
         || Js.gtb (preference record) 65535
      then
        {| isValid := false;
           reason := "Invalid preference value: "
                     ++ numberToString (preference record)
                     ++ ". Must be between 0 and 65535";
           mx := None |}
      else if isDottedQuad (exchange record) then
        {| isValid := false;
           reason := "MX exchange cannot be an IP address: "
                     ++ exchange record;
           mx := None |}
      else if negb (isHostname (exchange record)) then
        {| isValid := false;
           reason := "Invalid hostname format: " ++ exchange record;
           mx := None |}
      else validateRecords rest all
  end.

Definition checkMx (get : Resolver) (domain : string)
  : outcome MxCheckResult :=
  response <- get (requestPath domain) ;;
  if statusNotZero response then
    Ret {| isValid := false;
           reason := "DNS query failed or returned an error status";
           mx := None |}
  else
    match Answer response with
    | None =>
        Ret {| isValid := false;
               reason := "No MX records found for the domain";
               mx := None |}
    | Some answer =>
        mxRecords <- mapM parseAnswer answer ;;
        if (length mxRecords =? 0)%nat then
          Ret {| isValid := false; reason := "No valid MX records found";
                 mx := None |}
        else
          let exchanges := map exchange mxRecords in
          if negb (setSize exchanges =? length mxRecords)%nat then
            Ret {| isValid := false;
                   reason := "Duplicate MX exchanges found";
                   mx := None |}
          else Ret (validateRecords mxRecords mxRecords)
    end.

End WithNumberToString.

(** An instance of the conversion for concrete inputs: the decimal text of
    an integer held exactly and the text of [NaN], which is what the
    conversion yields on them.  For a number beyond 2^53 it gives the text of
    the integer read, which the conversion need not give. *)
Definition decimalNumberToString (x : Js.number) : string :=
  match x with
  | Js.NaN => "NaN"
  | Js.Int z | Js.Beyond z =>
      if (z <? 0)%Z
      then "-" ++ NilZero.string_of_uint (N.to_uint (Z.abs_N z))
      else NilZero.string_of_uint (N.to_uint (Z.abs_N z))
  end.

End Mx.

(** ** Resolvers and responses used as concrete inputs *)

Module Fixtures.
Import Doh.

Definition answers (texts : list string) : option (list AnswerRecord) :=
  Some (map Build_AnswerRecord texts).

(** A resolver that gives one body to every request. *)
Definition always (response : ResponseData) : Resolver :=
  fun _ => Ret response.

(** A resolver that gives [response] at [path] and the body of a name
    that does not exist, status 3 and no answer, anywhere else. *)
Definition only (path : string) (response : ResponseData) : Resolver :=
  fun p =>
    if String.eqb p path then Ret response
    else Ret {| Status := Some 3%Z; Answer := None |}.

Definition nxdomain : ResponseData :=
  {| Status := Some 3%Z; Answer := None |}.

Definition noAnswer : ResponseData :=
  {| Status := Some 0%Z; Answer := Some [] |}.

(** A DKIM record that passes the structural check, with status 2. *)
Definition failedWithDkimAnswer : ResponseData :=
  {| Status := Some 2%Z; Answer := answers ["v=DKIM1; k=rsa; p=KEY1"] |}.

(** A DKIM record that passes the structural check, with status 0. *)
Definition validDkimAnswer : ResponseData :=
  {| Status := Some 0%Z; Answer := answers ["v=DKIM1; k=rsa; p=KEY1"] |}.

(** The common selector [default] holds a valid record, no other name
    exists. *)
Definition onlyDefaultSelector : Resolver :=
  only (Dkim.requestPath "example.com" "default") validDkimAnswer.

(** An MX answer list whose second record has no exchange. *)
Definition mxWithoutExchange : ResponseData :=
  {| Status := Some 0%Z; Answer := answers ["10 mail.example.com."; "10"] |}.

(** Two answers with one exchange, written in two ways and with
    preferences that no later test would accept. *)
Definition mxDuplicates : ResponseData :=
  {| Status := Some 0%Z;
     Answer := answers ["70000 Mail.Example.com."; "x mail.example.com"] |}.

(** The same answers in a response whose status is 2. *)
Definition mxDuplicatesFailed : ResponseData :=
  {| Status := Some 2%Z;
     Answer := answers ["70000 Mail.Example.com."; "x mail.example.com"] |}.

(** The same answers followed by a record without an exchange. *)
Definition mxDuplicatesThenBare : ResponseData :=
  {| Status := Some 0%Z;
     Answer := answers ["70000 Mail.Example.com."; "x mail.example.com";
                        "30"] |}.

(** A record with ten [include] mechanisms and a final [a] followed by a
    tabulation. *)
Definition spfTenIncludesATab : string :=
  "v=spf1 include:1.com include:2.com include:3.com include:4.com include:5.com include:6.com include:7.com include:8.com include:9.com include:10.com a"
  ++ String Js.tab "".

Definition spfWithTab : ResponseData :=
  {| Status := Some 0%Z; Answer := answers [spfTenIncludesATab] |}.

(** The record of the package documentation, in quotes, next to a TXT record
    of another kind. *)
Definition spfGoogle : ResponseData :=
  {| Status := Some 0%Z;
     Answer := answers
                 [ "google-site-verification=abc";
                   String Js.dquote
                     ("v=spf1 include:_spf.google.com ~all"
                      ++ String Js.dquote "") ] |}.

(** A record with a version and a key but no [k=] tag, whose note holds
    the words of a reason; it is 39 characters long. *)
Definition malformedWithNote : ResponseData :=
  {| Status := Some 0%Z;
     Answer := answers ["v=DKIM1; p=KEY; n=No DKIM records found"] |}.

(** The selectors of the provider [microsoft]: the first holds the
    malformed record, the second a valid one. *)
Definition malformedThenValid : Resolver :=
  fun path =>
    if String.eqb path (Dkim.requestPath "example.com" "selector1")
    then Ret malformedWithNote
    else if String.eqb path (Dkim.requestPath "example.com" "selector2")
    then Ret validDkimAnswer
    else Ret nxdomain.

(** A record complete but for its version, written in lower case, whose
    note holds the words of a reason; it is 47 characters long. *)
Definition lowerCaseVersionWithNote : ResponseData :=
  {| Status := Some 0%Z;
     Answer := answers ["v=dkim1;k=rsa;p=K;n=No valid DKIM records found"] |}.

(** The selector [google] holds that record, the selector [default] a valid
    one, and no other name exists. *)
Definition lowerCaseThenValid : Resolver :=
  fun path =>
    if String.eqb path (Dkim.requestPath "example.com" "google")
    then Ret lowerCaseVersionWithNote
    else if String.eqb path (Dkim.requestPath "example.com" "default")
    then Ret validDkimAnswer
    else Ret nxdomain.

(** A record complete but for its version, written in lower case. *)
Definition lowerCaseVersion : ResponseData :=
  {| Status := Some 0%Z; Answer := answers ["v=dkim1; k=rsa; p=KEY"] |}.


End Fixtures.

(** ** Notions derived from the validators, used to state their properties *)

Module Derived.
Import Doh.

(** The probe of the selector resolved and found a valid record. *)
Definition probeIsValid (get : Resolver) (domain selector : string) : bool :=
  match Dkim.validateDkimForSelector get domain selector with
  | Ret result =>
      match Dkim.isValid result with
      | Some true => true
      | _ => false
      end
  | Throw _ => false
  end.

(** The probe of the selector resolved and is no immediate failure: a valid
    record, no answer, or no tagged answer. *)
Definition probePasses (get : Resolver) (domain selector : string) : bool :=
  match get (Dkim.requestPath domain selector) with
  | Ret response =>
      match DkimSpec.failureReason selector
              (DkimSpec.classify (Answer response)) with
      | None => true
      | Some _ => false
      end
  | Throw _ => false
  end.

(** Mechanisms that the counting loop has no branch for: the two address
    mechanisms and [all]. *)
Definition neverCounted (mech : string) : bool :=
  Js.startsWith mech "ip4:" || Js.startsWith mech "ip6:"
  || String.eqb mech "all".

(** The answer has the two fields that the parse of an MX answer reads. *)
Definition hasSpace (answer : AnswerRecord) : bool :=
  Js.includes (data answer) " ".

(** What [checkMx] has verified of an entry it returns. *)
Definition entryAccepted (entry : Mx.MxEntry) : Prop :=
  (exists z : Z, Mx.preference entry = Js.Int z /\ (0 <= z <= 65535)%Z)
  /\ Mx.isDottedQuad (Mx.exchange entry) = false
  /\ Mx.isHostname (Mx.exchange entry) = true.

(** A text between two double quotes, and an answer so written. *)
Definition quoted (text : string) : string :=
  String Js.dquote (text ++ String Js.dquote "").

Definition quoteAnswer (answer : AnswerRecord) : AnswerRecord :=
  {| data := quoted (data answer) |}.

(** The code units that the pattern of the host names lets through. *)
Definition isHostnameChar (c : ascii) : bool :=
  Mx.isAlnum c || Ascii.eqb c "-"%char || Ascii.eqb c "."%char.

(** The parts of a DKIM record that the structural check looks at. *)
Definition dkimParts (record : string) : list string :=
  map Js.trim (Js.split ";"%char (Js.removeQuotes record)).

(** The filter of [checkDmarc]. *)
Definition isDmarcTagged (record : AnswerRecord) : bool :=
  Js.includes (Js.toLowerCase (data record)) "v=dmarc1".

End Derived.

(** ** Further resolvers and responses used as concrete inputs *)

Module Cases.
Import Doh.

(** A resolver whose every request is rejected. *)
Definition offline : Resolver := fun _ => Throw (Rejected "Network Error").

(** No record at the selector [google], a rejection anywhere else. *)
Definition offlineAfterGoogle : Resolver :=
  fun path =>
    if String.eqb path (Dkim.requestPath "example.com" "google")
    then Ret Fixtures.nxdomain
    else Throw (Rejected "Network Error").

(** Two tagged records at the selector [selector2], a valid one at
    [selector1]. *)
Definition ambiguousSecond : Resolver :=
  fun path =>
    if String.eqb path (Dkim.requestPath "example.com" "selector2")
    then Ret {| Status := Some 0%Z;
                Answer := Fixtures.answers ["v=DKIM1; k=rsa; p=KEY1";
                                            "v=DKIM1; k=rsa; p=KEY2"] |}
    else Ret Fixtures.validDkimAnswer.

(** Valid records at the selectors [k1] and [mail], nothing elsewhere. *)
Definition twoValid : Resolver :=
  fun path =>
    if String.eqb path (Dkim.requestPath "example.com" "k1")
       || String.eqb path (Dkim.requestPath "example.com" "mail")
    then Ret Fixtures.validDkimAnswer
    else Ret Fixtures.nxdomain.

Definition twoSpfRecords : ResponseData :=
  {| Status := Some 0%Z;
     Answer := Fixtures.answers
                 [ "v=spf1 include:_spf.google.com ~all";
                   "some=other txt record";
                   "V=SPF1 ip4:192.168.1.1 -all" ] |}.

Definition twoDmarcRecords : ResponseData :=
  {| Status := Some 0%Z;
     Answer := Fixtures.answers
                 [ "v=DMARC1; p=none; rua=mailto:dmarc@example.com";
                   "v=dmarc1; p=reject" ] |}.

Definition dmarcValid : ResponseData :=
  {| Status := Some 0%Z;
     Answer := Fixtures.answers
                 [ "v=DMARC1; p=none; rua=mailto:dmarc@example.com" ] |}.

(** A record with a subdomain policy and no policy tag. *)
Definition dmarcSubdomainPolicyOnly : ResponseData :=
  {| Status := Some 0%Z;
     Answer := Fixtures.answers
                 [ "v=DMARC1; sp=none; rua=mailto:dmarc@example.com" ] |}.

Definition mxTwoRecords : ResponseData :=
  {| Status := Some 0%Z;
     Answer := Fixtures.answers
                 [ "10 mail.example.com."; "20 backup-mail.example.com." ] |}.

(** The record of the package documentation, bare and between quotes. *)
Definition spfBare : ResponseData :=
  {| Status := Some 0%Z;
     Answer := Fixtures.answers ["v=spf1 include:_spf.google.com ~all"] |}.

Definition spfQuoted : ResponseData :=
  {| Status := Some 0%Z;
     Answer := Fixtures.answers
                 [Derived.quoted "v=spf1 include:_spf.google.com ~all"] |}.

(** A record whose first token ends with a tabulation, and the record
    written from its two tokens in the other order. *)
Definition spfATabMx : string := "v=spf1 a" ++ String Js.tab " mx".

Definition spfMxATab : string := "v=spf1 mx a" ++ String Js.tab "".

Definition aTab : string := "a" ++ String Js.tab "".

Definition mxTwoDots : ResponseData :=
  {| Status := Some 0%Z;
     Answer := Fixtures.answers [ "10 mail.example.com.." ] |}.

End Cases.

(** * Properties *)

(** ** The string primitives on examples *)

Example toLowerCase_ex : Js.toLowerCase "V=DKIM1; K=rsa" = "v=dkim1; k=rsa".
Proof. reflexivity. Qed.

Example split_ex : Js.split " "%char "10  a b" = ["10"; ""; "a"; "b"].
Proof. reflexivity. Qed.

Example split_empty_ex : Js.split " "%char "" = [""].
Proof. reflexivity. Qed.

Example strip_ex :
  Js.stripOuterQuotes (String Js.dquote ("v=spf1 a" ++ String Js.dquote ""))
  = "v=spf1 a"
  /\ Js.stripOuterQuotes (String Js.dquote "") = ""
  /\ Js.stripOuterQuotes ("a" ++ String Js.dquote "") = "a".
Proof. repeat split. Qed.

Example parseInt_ex :
  Js.parseInt10 "10" = Js.Int 10 /\ Js.parseInt10 "-5x" = Js.Int (-5)
  /\ Js.parseInt10 "abc" = Js.NaN /\ Js.parseInt10 "" = Js.NaN
  /\ Js.parseInt10 "70000" = Js.Int 70000.
Proof. repeat split. Qed.

Example trim_ex : Js.trim "  a b  " = "a b".
Proof. reflexivity. Qed.

(** ** Shared facts *)

Lemma statusNotZero_false (r : Doh.ResponseData) :
  Doh.Status r = Some 0%Z -> Doh.statusNotZero r = false.
Proof. unfold Doh.statusNotZero; intros ->; reflexivity. Qed.

(** A probe reads the answers of the body and nothing else of it. *)
Lemma validateDkimForSelector_answers
  (get get' : Doh.Resolver) (domain selector : string)
  (r r' : Doh.ResponseData) :
  get (Dkim.requestPath domain selector) = Ret r ->
  get' (Dkim.requestPath domain selector) = Ret r' ->
  Doh.Answer r = Doh.Answer r' ->
  Dkim.validateDkimForSelector get domain selector
  = Dkim.validateDkimForSelector get' domain selector.
Proof.
  intros Hg Hg' HA. unfold Dkim.validateDkimForSelector.
  rewrite Hg, Hg'. cbn [bind]. rewrite HA. reflexivity.
Qed.

(** ** Failed queries *)

(** C1, as amended.  [checkSpf], [checkDmarc] and [checkMx] return the
    failure of the query as soon as the status of the response is not 0,
    whatever answers the response carries.  The selector probe of [checkDkim]
    has no such test: two responses with the same answers get the same
    verdict from it, whatever their statuses. *)
Theorem nonzero_status_short_circuits
  (get : Doh.Resolver) (domain : string) (response : Doh.ResponseData) :
  Doh.statusNotZero response = true ->
  (get (Spf.requestPath domain) = Ret response ->
   Spf.checkSpf get domain
   = Ret {| Spf.isValid := false;
            Spf.reason := "DNS query failed or returned an error status";
            Spf.spf := None |})
  /\ (get (Dmarc.requestPath domain) = Ret response ->
      Dmarc.checkDmarc get domain
      = Ret {| Dmarc.isValid := false;
               Dmarc.reason := "DNS query failed or returned an error status";
               Dmarc.dmarc := None |})
  /\ (get (Mx.requestPath domain) = Ret response ->
      forall numberToString,
        Mx.checkMx numberToString get domain
        = Ret {| Mx.isValid := false;
                 Mx.reason := "DNS query failed or returned an error status";
                 Mx.mx := None |})
  /\ (forall selector status,
        get (Dkim.requestPath domain selector) = Ret response ->
        Dkim.validateDkimForSelector get domain selector
        = Dkim.validateDkimForSelector
            (fun _ => Ret {| Doh.Status := status;
                             Doh.Answer := Doh.Answer response |})
            domain selector).
Proof.
  intros Hs. repeat split.
  - intros Hg. unfold Spf.checkSpf. rewrite Hg. cbn [bind]. now rewrite Hs.
  - intros Hg. unfold Dmarc.checkDmarc. rewrite Hg. cbn [bind]. now rewrite Hs.
  - intros Hg nts. unfold Mx.checkMx. rewrite Hg. cbn [bind]. now rewrite Hs.
  - intros selector status Hg.
    now apply (validateDkimForSelector_answers get _ domain selector response
                 {| Doh.Status := status; Doh.Answer := Doh.Answer response |}).
Qed.

Lemma nonzero_status_short_circuits_witness :
  Doh.statusNotZero Fixtures.failedWithDkimAnswer = true
  /\ Spf.checkSpf (Fixtures.always Fixtures.failedWithDkimAnswer) "example.com"
     = Ret {| Spf.isValid := false;
              Spf.reason := "DNS query failed or returned an error status";
              Spf.spf := None |}
  /\ Dmarc.checkDmarc (Fixtures.always Fixtures.failedWithDkimAnswer)
       "example.com"
     = Ret {| Dmarc.isValid := false;
              Dmarc.reason := "DNS query failed or returned an error status";
              Dmarc.dmarc := None |}
  /\ Mx.checkMx Mx.decimalNumberToString
       (Fixtures.always Fixtures.failedWithDkimAnswer) "example.com"
     = Ret {| Mx.isValid := false;
              Mx.reason := "DNS query failed or returned an error status";
              Mx.mx := None |}
  /\ Dkim.validateDkimForSelector
       (Fixtures.always Fixtures.failedWithDkimAnswer) "example.com" "google"
     = Dkim.validateDkimForSelector
         (Fixtures.always
            {| Doh.Status := Some 0%Z;
               Doh.Answer := Fixtures.answers ["v=DKIM1; k=rsa; p=KEY1"] |})
         "example.com" "google".
Proof.
  destruct (nonzero_status_short_circuits
              (Fixtures.always Fixtures.failedWithDkimAnswer) "example.com"
              Fixtures.failedWithDkimAnswer eq_refl)
    as (Hspf & Hdmarc & Hmx & Hdkim).
  split; [reflexivity |].
  split; [exact (Hspf eq_refl) |].
  split; [exact (Hdmarc eq_refl) |].
  split; [exact (Hmx eq_refl Mx.decimalNumberToString) |].
  exact (Hdkim "google" (Some 0%Z) eq_refl).
Defined.

(** C1, as stated, fails on the selector probe: an answer that comes with
    status 2 is examined, validated and accepted. *)
Lemma dkim_probe_reads_answers_of_failed_query :
  Doh.statusNotZero Fixtures.failedWithDkimAnswer = true
  /\ Dkim.validateDkimForSelector
       (Fixtures.always Fixtures.failedWithDkimAnswer) "example.com" "google"
     = Ret {| Dkim.isValid := Some true;
              Dkim.reason := "All checks passed" |}
  /\ Dkim.checkDkim (Fixtures.always Fixtures.failedWithDkimAnswer)
       "example.com" (Some "google")
     = Ret {| Dkim.checkIsValid := true;
              Dkim.checkReason := "DKIM records found";
              Dkim.dkimSelectors := Some ["google"] |}.
Proof. repeat split. Qed.

(** ** No TXT records *)

(** C2, as amended.  When the query succeeded (status 0) and the response
    has no answer, the field being absent or the list empty, [checkSpf] and
    [checkDmarc] fail with the reason of the missing TXT records. *)
Theorem no_txt_records_found
  (get : Doh.Resolver) (domain : string) (response : Doh.ResponseData) :
  Doh.Status response = Some 0%Z ->
  Doh.Answer response = None \/ Doh.Answer response = Some [] ->
  (get (Spf.requestPath domain) = Ret response ->
   Spf.checkSpf get domain
   = Ret {| Spf.isValid := false; Spf.reason := "No TXT records found";
            Spf.spf := None |})
  /\ (get (Dmarc.requestPath domain) = Ret response ->
      Dmarc.checkDmarc get domain
      = Ret {| Dmarc.isValid := false;
               Dmarc.reason := "No TXT records found";
               Dmarc.dmarc := None |}).
Proof.
  intros Hs HA. apply statusNotZero_false in Hs. split; intros Hg.
  - unfold Spf.checkSpf. rewrite Hg. cbn [bind]. rewrite Hs.
    destruct HA as [-> | ->]; reflexivity.
  - unfold Dmarc.checkDmarc. rewrite Hg. cbn [bind]. rewrite Hs.
    destruct HA as [-> | ->]; reflexivity.
Qed.

Lemma no_txt_records_found_witness :
  Spf.checkSpf (Fixtures.always Fixtures.noAnswer) "example.com"
  = Ret {| Spf.isValid := false; Spf.reason := "No TXT records found";
           Spf.spf := None |}
  /\ Dmarc.checkDmarc (Fixtures.always Fixtures.noAnswer) "example.com"
     = Ret {| Dmarc.isValid := false;
              Dmarc.reason := "No TXT records found";
              Dmarc.dmarc := None |}.
Proof.
  destruct (no_txt_records_found (Fixtures.always Fixtures.noAnswer)
              "example.com" Fixtures.noAnswer eq_refl (or_intror eq_refl))
    as (Hspf & Hdmarc).
  split; [exact (Hspf eq_refl) | exact (Hdmarc eq_refl)].
Defined.

(** C2, as stated, fails on a name that does not exist: the response has
    status 3 and no answer, and the reason is the one of the failed query. *)
Lemma no_answer_with_status_3_is_query_failure :
  Doh.Answer Fixtures.nxdomain = None
  /\ Spf.checkSpf (Fixtures.always Fixtures.nxdomain) "example.com"
     = Ret {| Spf.isValid := false;
              Spf.reason := "DNS query failed or returned an error status";
              Spf.spf := None |}
  /\ Dmarc.checkDmarc (Fixtures.always Fixtures.nxdomain) "example.com"
     = Ret {| Dmarc.isValid := false;
              Dmarc.reason := "DNS query failed or returned an error status";
              Dmarc.dmarc := None |}
  /\ "DNS query failed or returned an error status" <> "No TXT records found".
Proof. repeat split. discriminate. Qed.


(** ** The provider argument of [checkDkim] *)

(** C7, as amended.  A provider that is a non-empty string other than
    [google] and [microsoft] makes [checkDkim] throw a [TypeError] before any
    query is made.  The empty string is falsy: it is treated as an absent
    argument and the common selectors are probed. *)
Theorem unknown_provider_throws
  (get : Doh.Resolver) (domain provider : string) :
  (provider <> "" -> provider <> "google" -> provider <> "microsoft" ->
   Dkim.checkDkim get domain (Some provider)
   = Throw (TypeError "selectorsToCheck is not iterable"))
  /\ Dkim.checkDkim get domain (Some "") = Dkim.checkDkim get domain None.
Proof.
  split.
  2: { unfold Dkim.checkDkim. cbn [Dkim.selectorsToCheck Js.truthy].
       reflexivity. }
  intros Hne Hg Hm. unfold Dkim.checkDkim, Dkim.selectorsToCheck.
  destruct provider as [| c p]; [now elim Hne |]. cbn [Js.truthy].
  unfold Dkim.dkimSelectorsForProviders.
  destruct (String.eqb_spec (String c p) "google") as [E | _];
    [now elim Hg |].
  destruct (String.eqb_spec (String c p) "microsoft") as [E | _];
    [now elim Hm |].
  reflexivity.
Qed.

Lemma unknown_provider_throws_witness :
  Dkim.checkDkim (Fixtures.always Fixtures.validDkimAnswer) "example.com"
    (Some "invalid-provider")
  = Throw (TypeError "selectorsToCheck is not iterable").
Proof.
  destruct (unknown_provider_throws
              (Fixtures.always Fixtures.validDkimAnswer)
              "example.com" "invalid-provider") as [H _].
  apply H; discriminate.
Defined.

(** C7, as stated, fails on the empty string: the call returns a result,
    and the selector it reports is one of the common list only. *)
Lemma empty_provider_falls_back_to_common_selectors :
  Dkim.checkDkim Fixtures.onlyDefaultSelector "example.com" (Some "")
  = Ret {| Dkim.checkIsValid := true;
           Dkim.checkReason := "DKIM records found";
           Dkim.dkimSelectors := Some ["default"] |}
  /\ Dkim.dkimSelectorsForProviders "google" = Some ["google"]
  /\ Dkim.dkimSelectorsForProviders "microsoft"
     = Some ["selector1"; "selector2"].
Proof. vm_compute. repeat split. Qed.

(** ** Parsing of MX answers *)

Lemma prefix_space (c : ascii) (s : string) :
  String.prefix " " (String c s) = Ascii.eqb c " "%char.
Proof.
  cbn [String.prefix]. destruct (ascii_dec " "%char c) as [<- | N].
  - now destruct s.
  - symmetry. apply Ascii.eqb_neq. congruence.
Qed.

(** A text without a space is the single element of its split. *)
Lemma split_without_space (s : string) :
  Js.includes s " " = false -> Js.split " "%char s = [s].
Proof.
  induction s as [| c s IH]; [reflexivity |].
  cbn [Js.includes Js.split]. rewrite prefix_space.
  destruct (Ascii.eqb c " "%char); [discriminate |].
  intros H. now rewrite (IH H).
Qed.

(** The split of a text at its first space. *)
Lemma split_at_first_space (p e : string) :
  Js.includes p " " = false ->
  Js.split " "%char (p ++ String " "%char e) = p :: Js.split " "%char e.
Proof.
  induction p as [| c p IH]; [reflexivity |].
  cbn [Js.includes append Js.split]. rewrite prefix_space.
  destruct (Ascii.eqb c " "%char); [discriminate |].
  intros H. now rewrite (IH H).
Qed.

Lemma parseAnswer_without_space (a : Doh.AnswerRecord) :
  Js.includes (Doh.data a) " " = false ->
  Mx.parseAnswer a
  = Throw (TypeError
             "Cannot read properties of undefined (reading 'toLowerCase')").
Proof.
  intros H. unfold Mx.parseAnswer. now rewrite (split_without_space _ H).
Qed.

(** [parseAnswer] has one way to fail. *)
Lemma parseAnswer_Throw (a : Doh.AnswerRecord) (e : error) :
  Mx.parseAnswer a = Throw e ->
  e = TypeError "Cannot read properties of undefined (reading 'toLowerCase')".
Proof.
  unfold Mx.parseAnswer.
  destruct (Js.split " "%char (Doh.data a)) as [| p [| x l]];
    intros H; now inversion H.
Qed.

(** The map over the answers throws as soon as one callback throws. *)
Lemma mapM_parseAnswer_Throw (l : list Doh.AnswerRecord) (a : Doh.AnswerRecord) :
  In a l ->
  Js.includes (Doh.data a) " " = false ->
  mapM Mx.parseAnswer l
  = Throw (TypeError
             "Cannot read properties of undefined (reading 'toLowerCase')").
Proof.
  induction l as [| b l IH]; intros Hin Hsp; [contradiction |].
  cbn [mapM]. destruct (Mx.parseAnswer b) as [m | e] eqn:Eb.
  - destruct Hin as [-> | Hin].
    + rewrite (parseAnswer_without_space a Hsp) in Eb. discriminate.
    + cbn [bind]. now rewrite (IH Hin Hsp).
  - cbn [bind]. now rewrite (parseAnswer_Throw b e Eb).
Qed.

(** C10.  [parseAnswer] is a total function into [outcome].  When the
    response has status 0 and its answer list holds a record whose text has
    no space, [checkMx] throws the [TypeError] of the call of [toLowerCase]
    on [undefined]; it returns no result. *)
Theorem checkMx_throws_without_exchange
  (numberToString : Js.number -> string) (get : Doh.Resolver)
  (domain : string) (response : Doh.ResponseData)
  (answer : list Doh.AnswerRecord) (a : Doh.AnswerRecord) :
  get (Mx.requestPath domain) = Ret response ->
  Doh.Status response = Some 0%Z ->
  Doh.Answer response = Some answer ->
  In a answer ->
  Js.includes (Doh.data a) " " = false ->
  Mx.checkMx numberToString get domain
  = Throw (TypeError
             "Cannot read properties of undefined (reading 'toLowerCase')").
Proof.
  intros Hg Hs HA Hin Hsp. unfold Mx.checkMx. rewrite Hg. cbn [bind].
  rewrite (statusNotZero_false _ Hs), HA.
  now rewrite (mapM_parseAnswer_Throw answer a Hin Hsp).
Qed.

Lemma checkMx_throws_without_exchange_witness :
  Mx.checkMx Mx.decimalNumberToString
    (Fixtures.always Fixtures.mxWithoutExchange) "example.com"
  = Throw (TypeError
             "Cannot read properties of undefined (reading 'toLowerCase')").
Proof.
  apply (checkMx_throws_without_exchange Mx.decimalNumberToString
           (Fixtures.always Fixtures.mxWithoutExchange) "example.com"
           Fixtures.mxWithoutExchange
           [ {| Doh.data := "10 mail.example.com." |};
             {| Doh.data := "10" |} ]
           {| Doh.data := "10" |});
    [reflexivity | reflexivity | reflexivity | | reflexivity].
  right; left; reflexivity.
Defined.







(** A number is beyond 2^53 only when made of an integer beyond 2^53. *)
Lemma toNumber_Beyond (z z' : Z) :
  Js.toNumber z = Js.Beyond z' -> (Js.maxExact < Z.abs z')%Z.
Proof.
  unfold Js.toNumber. destruct (Z.abs z <=? Js.maxExact)%Z eqn:H;
    [discriminate |].
  intros [= <-]. now apply Z.leb_gt.
Qed.

Lemma parseInt10_Beyond (s : string) (z : Z) :
  Js.parseInt10 s = Js.Beyond z -> (Js.maxExact < Z.abs z)%Z.
Proof.
  unfold Js.parseInt10. destruct (Js.readInteger s) as [v |];
    [apply toNumber_Beyond | discriminate].
Qed.








(** ** Duplicate exchanges *)

Lemma nodup_length_le (l : list string) :
  length (nodup string_dec l) <= length l.
Proof.
  induction l as [| a l IH]; [reflexivity |]. cbn [nodup].
  destruct (in_dec string_dec a l); cbn [length]; lia.
Qed.

(** The set of the values of a list is as large as the list only when no
    value is repeated. *)
Lemma setSize_full_NoDup (l : list string) :
  Mx.setSize l = length l -> NoDup l.
Proof.
  unfold Mx.setSize. induction l as [| a l IH]; intros H; [constructor |].
  cbn [nodup] in H. pose proof (nodup_length_le l) as Hle.
  destruct (in_dec string_dec a l) as [Hin | Hnin]; cbn [length] in H.
  - lia.
  - constructor; [exact Hnin | apply IH; lia].
Qed.

Lemma setSize_repeated (l : list string) (i j : nat) (x : string) :
  i <> j -> nth_error l i = Some x -> nth_error l j = Some x ->
  Mx.setSize l <> length l.
Proof.
  intros Hij Hi Hj Hsize. apply setSize_full_NoDup in Hsize.
  apply Hij. apply (proj1 (NoDup_nth_error l) Hsize).
  - apply nth_error_Some. congruence.
  - congruence.
Qed.

(** C5, as amended.  When the response has status 0, every answer parses
    and two distinct parsed entries have the same exchange, [checkMx] fails
    with the reason of the duplicate exchanges.  Nothing is asked of the
    preferences nor of the form of the exchanges. *)
Theorem duplicate_exchanges_rejected
  (numberToString : Js.number -> string) (get : Doh.Resolver)
  (domain : string) (response : Doh.ResponseData)
  (answer : list Doh.AnswerRecord) (mxRecords : list Mx.MxEntry)
  (i j : nat) (a b : Mx.MxEntry) :
  get (Mx.requestPath domain) = Ret response ->
  Doh.Status response = Some 0%Z ->
  Doh.Answer response = Some answer ->
  mapM Mx.parseAnswer answer = Ret mxRecords ->
  i <> j ->
  nth_error mxRecords i = Some a ->
  nth_error mxRecords j = Some b ->
  Mx.exchange a = Mx.exchange b ->
  Mx.checkMx numberToString get domain
  = Ret {| Mx.isValid := false;
           Mx.reason := "Duplicate MX exchanges found";
           Mx.mx := None |}.
Proof.
  intros Hg Hs HA Hparse Hij Hi Hj Hab. unfold Mx.checkMx.
  rewrite Hg. cbn [bind]. rewrite (statusNotZero_false _ Hs), HA, Hparse.
  cbn [bind].
  destruct mxRecords as [| m ms]; [destruct i; discriminate |].
  cbn [length Nat.eqb].
  assert (Hne : Mx.setSize (map Mx.exchange (m :: ms))
                <> length (m :: ms)).
  { rewrite <- (length_map Mx.exchange).
    apply (setSize_repeated _ i j (Mx.exchange a)); [exact Hij | |].
    - now rewrite nth_error_map, Hi.
    - now rewrite nth_error_map, Hj, Hab. }
  apply Nat.eqb_neq in Hne. cbn [length] in Hne. now rewrite Hne.
Qed.

Lemma duplicate_exchanges_rejected_witness :
  Mx.checkMx Mx.decimalNumberToString
    (Fixtures.always Fixtures.mxDuplicates) "example.com"
  = Ret {| Mx.isValid := false;
           Mx.reason := "Duplicate MX exchanges found";
           Mx.mx := None |}.
Proof.
  apply (duplicate_exchanges_rejected Mx.decimalNumberToString
           (Fixtures.always Fixtures.mxDuplicates) "example.com"
           Fixtures.mxDuplicates
           [ {| Doh.data := "70000 Mail.Example.com." |};
             {| Doh.data := "x mail.example.com" |} ]
           [ {| Mx.preference := Js.Int 70000;
                Mx.exchange := "mail.example.com" |};
             {| Mx.preference := Js.NaN;
                Mx.exchange := "mail.example.com" |} ]
           0 1
           {| Mx.preference := Js.Int 70000;
              Mx.exchange := "mail.example.com" |}
           {| Mx.preference := Js.NaN; Mx.exchange := "mail.example.com" |});
    try reflexivity.
  discriminate.
Defined.

(** C5, as stated, fails on two answer lists with a repeated exchange: one
    comes with status 2 and gets the reason of the failed query, the other
    holds a record without an exchange and makes [checkMx] throw. *)
Lemma duplicates_not_reported :
  Mx.checkMx Mx.decimalNumberToString
    (Fixtures.always Fixtures.mxDuplicatesFailed) "example.com"
  = Ret {| Mx.isValid := false;
           Mx.reason := "DNS query failed or returned an error status";
           Mx.mx := None |}
  /\ Mx.checkMx Mx.decimalNumberToString
       (Fixtures.always Fixtures.mxDuplicatesThenBare) "example.com"
     = Throw (TypeError
                "Cannot read properties of undefined (reading 'toLowerCase')").
Proof. split; vm_compute; reflexivity. Qed.

(** ** The count of DNS lookups *)

Lemma prefix_char (d c : ascii) (s : string) :
  String.prefix (String d "") (String c s) = Ascii.eqb c d.
Proof.
  cbn [String.prefix]. destruct (ascii_dec d c) as [<- | N].
  - rewrite Ascii.eqb_refl. now destruct s.
  - symmetry. apply Ascii.eqb_neq. congruence.
Qed.

(** The qualifier test of the source strips what the specification strips. *)
Lemma skipQualifier_stated (m : string) :
  Spf.skipQualifier m = SpfSpec.stripQualifier m.
Proof.
  destruct m as [| c s]; [reflexivity |].
  unfold Spf.skipQualifier, SpfSpec.stripQualifier, Js.startsWith,
    Spf.isQualifier.
  now rewrite !prefix_char.
Qed.

(** The two counting branches of the source cover what the specification
    lists. *)
Lemma requiresLookup_stated (m : string) :
  Spf.requiresLookup m = SpfSpec.incursLookup m.
Proof.
  unfold Spf.requiresLookup, SpfSpec.incursLookup, Js.startsWith.
  destruct (String.eqb m "a"), (String.eqb m "mx"),
    (String.prefix "include:" m), (String.prefix "a:" m),
    (String.prefix "mx:" m), (String.prefix "ptr:" m),
    (String.prefix "exists:" m), (String.prefix "redirect=" m);
    reflexivity.
Qed.

Lemma lookupsOf_fold (l : list string) (n : nat) :
  fold_left
    (fun lookups mechanism =>
       if Spf.requiresLookup (Spf.skipQualifier mechanism) then S lookups
       else lookups) l n
  = n + SpfSpec.countTokens l.
Proof.
  unfold SpfSpec.countTokens. revert n.
  induction l as [| m l IH]; intros n; cbn [fold_left filter length];
    [lia |].
  rewrite IH, skipQualifier_stated, requiresLookup_stated.
  destruct (SpfSpec.incursLookup (SpfSpec.stripQualifier m));
    cbn [length]; lia.
Qed.

Lemma lookupsOf_countTokens (l : list string) :
  Spf.lookupsOf l = SpfSpec.countTokens l.
Proof. unfold Spf.lookupsOf. now rewrite lookupsOf_fold. Qed.

Lemma countTokens_cons (m : string) (l : list string) :
  SpfSpec.countTokens (m :: l)
  = (if SpfSpec.incursLookup (SpfSpec.stripQualifier m) then 1 else 0)
    + SpfSpec.countTokens l.
Proof.
  unfold SpfSpec.countTokens. cbn [filter].
  now destruct (SpfSpec.incursLookup (SpfSpec.stripQualifier m)).
Qed.

Lemma countTokens_app (l1 l2 : list string) :
  SpfSpec.countTokens (l1 ++ l2)
  = SpfSpec.countTokens l1 + SpfSpec.countTokens l2.
Proof.
  unfold SpfSpec.countTokens. now rewrite filter_app, length_app.
Qed.

(** Empty tokens count for nothing: dropping them changes no count. *)
Lemma countTokens_truthy (l : list string) :
  SpfSpec.countTokens (filter Js.truthy l) = SpfSpec.countTokens l.
Proof.
  induction l as [| m l IH]; [reflexivity |]. cbn [filter].
  destruct m as [| c s]; cbn [Js.truthy].
  - now rewrite countTokens_cons, IH.
  - now rewrite !countTokens_cons, IH.
Qed.

(** The count of the source is the count of the specification taken on the
    trimmed remainder. *)
Lemma countDnsLookups_trimmed (spfRecord : string) :
  Spf.countDnsLookups spfRecord = SpfSpec.lookupCountTrimmed spfRecord.
Proof.
  unfold Spf.countDnsLookups, Spf.mechanisms, SpfSpec.lookupCountTrimmed.
  now rewrite lookupsOf_countTokens, countTokens_truthy.
Qed.

Lemma countTokens_Permutation (l l' : list string) :
  Permutation l l' -> SpfSpec.countTokens l = SpfSpec.countTokens l'.
Proof.
  induction 1 as [| x l l' _ IH | x y l | l l' l'' _ IH1 _ IH2];
    rewrite ?countTokens_cons; try lia; congruence.
Qed.

Lemma isQualifier_cases (c : ascii) :
  Spf.isQualifier c = true ->
  c = "+"%char \/ c = "-"%char \/ c = "?"%char \/ c = "~"%char.
Proof.
  unfold Spf.isQualifier. rewrite !orb_true_iff, !Ascii.eqb_eq. tauto.
Qed.

(** A mechanism that incurs a lookup does not begin with a qualifier. *)
Lemma incursLookup_unqualified (m : string) :
  SpfSpec.incursLookup m = true -> SpfSpec.stripQualifier m = m.
Proof.
  destruct m as [| c s]; [reflexivity |]. intros H.
  unfold SpfSpec.stripQualifier.
  destruct (Spf.isQualifier c) eqn:Q; [| reflexivity].
  apply isQualifier_cases in Q.
  destruct Q as [-> | [-> | [-> | ->]]]; discriminate H.
Qed.

Lemma countTokens_step (l l' : list string) :
  SpfSpec.tokenStep l l' -> SpfSpec.countTokens l = SpfSpec.countTokens l'.
Proof.
  intros [l0 l0' HP | l1 l2 q m Hq Hm | l1 l2 q m Hq Hm].
  - now apply countTokens_Permutation.
  - rewrite !countTokens_app, !countTokens_cons.
    rewrite (incursLookup_unqualified m Hm).
    cbn [SpfSpec.stripQualifier]. now rewrite Hq.
  - rewrite !countTokens_app, !countTokens_cons.
    rewrite (incursLookup_unqualified m Hm).
    cbn [SpfSpec.stripQualifier]. now rewrite Hq.
Qed.

Lemma countTokens_steps (l l' : list string) :
  SpfSpec.tokenSteps l l' -> SpfSpec.countTokens l = SpfSpec.countTokens l'.
Proof.
  induction 1 as [l | l l' l'' Hstep _ IH]; [reflexivity |].
  now rewrite (countTokens_step l l' Hstep).
Qed.


(** *** Records written from their tokens *)

Lemma append_empty_r (s : string) : s ++ "" = s.
Proof. induction s as [| c s IH]; [reflexivity |]. cbn. now rewrite IH. Qed.

Lemma append_String_assoc (s : string) (c : ascii) (t : string) :
  s ++ String c t = (s ++ String c "") ++ t.
Proof. induction s as [| a s IH]; [reflexivity |]. cbn. now rewrite IH. Qed.

Lemma isTerm_String (c : ascii) (s : string) :
  SpfSpec.isTerm (String c s) = true ->
  Js.isWhiteSpace c = false
  /\ Js.allChars (fun x => negb (Js.isWhiteSpace x)) s = true.
Proof.
  unfold SpfSpec.isTerm. cbn [Js.truthy Js.allChars andb].
  rewrite andb_true_iff, negb_true_iff. tauto.
Qed.

Lemma trimEnd_clean (s : string) :
  Js.allChars (fun x => negb (Js.isWhiteSpace x)) s = true ->
  Js.trimEnd s = s.
Proof.
  induction s as [| c s IH]; [reflexivity |]. cbn [Js.allChars Js.trimEnd].
  rewrite andb_true_iff, negb_true_iff. intros [Hc Hs].
  rewrite (IH Hs). destruct s; [now rewrite Hc | reflexivity].
Qed.

(** Nothing is trimmed at the end of a text whose non-empty end is kept. *)
Lemma trimEnd_app (s1 s2 : string) :
  s2 <> "" -> Js.trimEnd s2 = s2 -> Js.trimEnd (s1 ++ s2) = s1 ++ s2.
Proof.
  intros Hne H2. induction s1 as [| c s1 IH]; [exact H2 |].
  cbn [append Js.trimEnd]. rewrite IH.
  destruct (s1 ++ s2) eqn:E; [| reflexivity].
  destruct s1; [now elim Hne | discriminate].
Qed.

Lemma clean_without_space (s : string) :
  Js.allChars (fun x => negb (Js.isWhiteSpace x)) s = true ->
  Js.includes s " " = false.
Proof.
  induction s as [| c s IH]; [reflexivity |]. cbn [Js.allChars Js.includes].
  rewrite andb_true_iff, negb_true_iff, prefix_space. intros [Hc Hs].
  destruct (Ascii.eqb_spec c " "%char) as [-> | _]; [discriminate Hc |].
  exact (IH Hs).
Qed.

Lemma isTerm_clean (t : string) :
  SpfSpec.isTerm t = true ->
  t <> "" /\ Js.allChars (fun x => negb (Js.isWhiteSpace x)) t = true.
Proof.
  unfold SpfSpec.isTerm. rewrite andb_true_iff. intros [Ht Hc].
  split; [now destruct t | exact Hc].
Qed.

Lemma trimEnd_terms (t : string) (ts : list string) :
  forallb SpfSpec.isTerm (t :: ts) = true ->
  Js.trimEnd (t ++ SpfSpec.spaced ts) = t ++ SpfSpec.spaced ts.
Proof.
  revert t. induction ts as [| u us IH]; intros t; cbn [forallb];
    rewrite andb_true_iff; intros [Ht Hts]; cbn [SpfSpec.spaced].
  - rewrite append_empty_r. apply trimEnd_clean.
    now apply isTerm_clean.
  - rewrite append_String_assoc. apply trimEnd_app.
    + cbn [forallb] in Hts. apply andb_true_iff in Hts.
      destruct Hts as [Hu _]. apply isTerm_clean in Hu.
      destruct u; [now elim (proj1 Hu) | discriminate].
    + now apply IH.
Qed.

Lemma split_terms (t : string) (ts : list string) :
  forallb SpfSpec.isTerm (t :: ts) = true ->
  Js.split " "%char (t ++ SpfSpec.spaced ts) = t :: ts.
Proof.
  revert t. induction ts as [| u us IH]; intros t; cbn [forallb];
    rewrite andb_true_iff; intros [Ht Hts]; cbn [SpfSpec.spaced];
    apply isTerm_clean in Ht; destruct Ht as [_ Ht];
    apply clean_without_space in Ht.
  - rewrite append_empty_r. now apply split_without_space.
  - rewrite (split_at_first_space t _ Ht). f_equal. now apply IH.
Qed.

Lemma filter_truthy_terms (ts : list string) :
  forallb SpfSpec.isTerm ts = true -> filter Js.truthy ts = ts.
Proof.
  induction ts as [| t ts IH]; [reflexivity |]. cbn [forallb filter].
  rewrite andb_true_iff. intros [Ht Hts].
  unfold SpfSpec.isTerm in Ht. apply andb_true_iff in Ht.
  destruct Ht as [-> _]. now rewrite (IH Hts).
Qed.

(** The tokens the source reads in a record written from terms are these
    terms. *)
Lemma mechanisms_recordOf (ts : list string) :
  forallb SpfSpec.isTerm ts = true ->
  Spf.mechanisms (SpfSpec.recordOf ts) = ts.
Proof.
  intros H. unfold Spf.mechanisms, SpfSpec.recordOf.
  change (Js.substringFrom 6 ("v=spf1" ++ SpfSpec.spaced ts))
    with (SpfSpec.spaced ts).
  destruct ts as [| t ts]; [reflexivity |].
  cbn [SpfSpec.spaced]. unfold Js.trim. cbn [Js.trimStart].
  change (Js.isWhiteSpace " "%char) with true. cbv iota.
  assert (Hstart : Js.trimStart (t ++ SpfSpec.spaced ts)
                   = t ++ SpfSpec.spaced ts).
  { pose proof H as H'. cbn [forallb] in H'. apply andb_true_iff in H'.
    destruct H' as [Ht _]. destruct t as [| c t]; [discriminate Ht |].
    apply isTerm_String in Ht. destruct Ht as [Hc _].
    cbn [append Js.trimStart]. now rewrite Hc. }
  rewrite Hstart, (trimEnd_terms t ts H), (split_terms t ts H).
  now apply filter_truthy_terms.
Qed.

Lemma isTerm_step (l l' : list string) :
  SpfSpec.tokenStep l l' ->
  forallb SpfSpec.isTerm l = true -> forallb SpfSpec.isTerm l' = true.
Proof.
  intros [l0 l0' HP | l1 l2 q m Hq Hm | l1 l2 q m Hq Hm].
  - rewrite !forallb_forall. intros H x Hx. apply H.
    now apply (Permutation_in x (Permutation_sym HP)).
  - rewrite !forallb_app. cbn [forallb]. rewrite !andb_true_iff.
    intros (H1 & Hmt & H2). repeat split; try assumption.
    apply isTerm_clean in Hmt. destruct Hmt as [_ Hc].
    unfold SpfSpec.isTerm. cbn [Js.truthy Js.allChars andb]. rewrite Hc.
    apply isQualifier_cases in Hq.
    destruct Hq as [-> | [-> | [-> | ->]]]; reflexivity.
  - rewrite !forallb_app. cbn [forallb]. rewrite !andb_true_iff.
    intros (H1 & Hqm & H2). repeat split; try assumption.
    apply isTerm_String in Hqm. destruct Hqm as [_ Hc].
    unfold SpfSpec.isTerm. rewrite Hc.
    destruct m; [discriminate Hm | reflexivity].
Qed.

Lemma isTerm_steps (l l' : list string) :
  SpfSpec.tokenSteps l l' ->
  forallb SpfSpec.isTerm l = true -> forallb SpfSpec.isTerm l' = true.
Proof.
  induction 1 as [l | l l' l'' Hstep _ IH]; [trivial |].
  intros H. apply IH. now apply (isTerm_step l l').
Qed.

(** C6, as amended.  Whenever the tokens that [countDnsLookups] reads in
    one record are obtained from those it reads in another by permutations
    and by adding or removing a qualifier in front of mechanisms that incur a
    lookup, the two counts are equal.  This holds between the records written
    from a list of tokens that are not empty and hold no white space and from
    any list obtained from it in this way. *)
Theorem countDnsLookups_invariant :
  (forall r r' : string,
      SpfSpec.tokenSteps (Spf.mechanisms r) (Spf.mechanisms r') ->
      Spf.countDnsLookups r = Spf.countDnsLookups r')
  /\ (forall ts ts' : list string,
         forallb SpfSpec.isTerm ts = true ->
         SpfSpec.tokenSteps ts ts' ->
         Spf.countDnsLookups (SpfSpec.recordOf ts)
         = Spf.countDnsLookups (SpfSpec.recordOf ts')).
Proof.
  split.
  - intros r r' H. unfold Spf.countDnsLookups.
    rewrite !lookupsOf_countTokens. now apply countTokens_steps.
  - intros ts ts' Hts H. unfold Spf.countDnsLookups.
    rewrite (mechanisms_recordOf ts Hts).
    rewrite (mechanisms_recordOf ts' (isTerm_steps ts ts' H Hts)).
    rewrite !lookupsOf_countTokens. now apply countTokens_steps.
Qed.

Lemma countDnsLookups_invariant_witness :
  Spf.countDnsLookups "v=spf1 include:_spf.google.com mx ~all"
  = Spf.countDnsLookups "v=spf1   -mx ~all include:_spf.google.com "
  /\ Spf.countDnsLookups
       (SpfSpec.recordOf ["include:_spf.google.com"; "mx"; "~all"])
     = Spf.countDnsLookups
         (SpfSpec.recordOf ["-mx"; "~all"; "include:_spf.google.com"]).
Proof.
  assert (H : SpfSpec.tokenSteps
                ["include:_spf.google.com"; "mx"; "~all"]
                ["-mx"; "~all"; "include:_spf.google.com"]).
  { apply (SpfSpec.steps_step _ ["mx"; "~all"; "include:_spf.google.com"]).
    - apply SpfSpec.step_permute.
      apply (perm_trans (perm_swap "mx" "include:_spf.google.com" ["~all"])).
      apply perm_skip. apply perm_swap.
    - apply (SpfSpec.steps_step _ ["-mx"; "~all"; "include:_spf.google.com"]).
      + exact (SpfSpec.step_add_qualifier []
                 ["~all"; "include:_spf.google.com"] "-"%char "mx"
                 eq_refl eq_refl).
      + apply SpfSpec.steps_refl. }
  destruct countDnsLookups_invariant as [Hrecords Hterms].
  split.
  - apply Hrecords. exact H.
  - apply Hterms; [reflexivity | exact H].
Defined.

(** C6, as stated, fails on a record one of whose tokens ends with a
    tabulation: [countDnsLookups] reads the tokens a-tabulation and mx in the
    first record and counts 1; in the record written from these two tokens in
    the other order the tabulation is at the end, where it is trimmed, and
    the count is 2. *)
Lemma permuted_tab_token_counts_more :
  Spf.mechanisms Cases.spfATabMx = [Cases.aTab; "mx"]
  /\ SpfSpec.recordOf ["mx"; Cases.aTab] = Cases.spfMxATab
  /\ Permutation [Cases.aTab; "mx"] ["mx"; Cases.aTab]
  /\ Spf.countDnsLookups Cases.spfATabMx = 1
  /\ Spf.countDnsLookups Cases.spfMxATab = 2.
Proof. repeat split. apply perm_swap. Qed.

(** ** The lookup limit of [checkSpf] *)

(** C4, as amended.  When the response has status 0 and exactly one of its
    answers is an SPF record, the record with its outer quotes stripped, the
    count of the source is: drop the six characters of the version, trim the
    white space around what is left, split on spaces, strip one leading
    qualifier from each token, and count the tokens that are [a] or [mx] or
    begin with one of the six prefixes.  [checkSpf] fails with the reason of
    the lookup limit when that count exceeds 10 and otherwise succeeds with
    the stripped record. *)
Theorem checkSpf_lookup_limit
  (get : Doh.Resolver) (domain : string) (response : Doh.ResponseData)
  (answer : list Doh.AnswerRecord) (first : Doh.AnswerRecord) :
  get (Spf.requestPath domain) = Ret response ->
  Doh.Status response = Some 0%Z ->
  Doh.Answer response = Some answer ->
  filter Spf.isSpfRecord answer = [first] ->
  Spf.countDnsLookups (Js.stripOuterQuotes (Doh.data first))
  = SpfSpec.lookupCountTrimmed (Js.stripOuterQuotes (Doh.data first))
  /\ Spf.checkSpf get domain
     = Ret (if (10 <? SpfSpec.lookupCountTrimmed
                        (Js.stripOuterQuotes (Doh.data first)))%nat
            then {| Spf.isValid := false;
                    Spf.reason := "Too many DNS lookups (exceeds 10)";
                    Spf.spf := None |}
            else {| Spf.isValid := true;
                    Spf.reason := "Valid SPF record";
                    Spf.spf := Some (Js.stripOuterQuotes (Doh.data first)) |}).
Proof.
  intros Hg Hs HA Hf. split; [apply countDnsLookups_trimmed |].
  unfold Spf.checkSpf. rewrite Hg. cbn [bind].
  rewrite (statusNotZero_false _ Hs), HA.
  destruct answer as [| a l]; [discriminate Hf |].
  rewrite Hf. change (1 <? length [first])%nat with false. cbv iota.
  rewrite countDnsLookups_trimmed.
  now destruct (10 <? SpfSpec.lookupCountTrimmed
                        (Js.stripOuterQuotes (Doh.data first)))%nat.
Qed.

Lemma checkSpf_lookup_limit_witness :
  Spf.checkSpf (Fixtures.always Fixtures.spfGoogle) "example.com"
  = Ret {| Spf.isValid := true; Spf.reason := "Valid SPF record";
           Spf.spf := Some "v=spf1 include:_spf.google.com ~all" |}.
Proof.
  exact (proj2 (checkSpf_lookup_limit
                  (Fixtures.always Fixtures.spfGoogle) "example.com"
                  Fixtures.spfGoogle
                  [ {| Doh.data := "google-site-verification=abc" |};
                    {| Doh.data :=
                         String Js.dquote
                           ("v=spf1 include:_spf.google.com ~all"
                            ++ String Js.dquote "") |} ]
                  {| Doh.data :=
                       String Js.dquote
                         ("v=spf1 include:_spf.google.com ~all"
                          ++ String Js.dquote "") |}
                  eq_refl eq_refl eq_refl eq_refl)).
Defined.

(** C4, as stated, fails on a record that ends with a tabulation: it is
    the one SPF record of its response, the count described is 10, which
    does not exceed the limit, and [checkSpf] rejects it for the limit,
    having counted 11. *)
Lemma trailing_tab_counts_one_more :
  filter Spf.isSpfRecord
    [ {| Doh.data := Fixtures.spfTenIncludesATab |} ]
  = [ {| Doh.data := Fixtures.spfTenIncludesATab |} ]
  /\ SpfSpec.lookupCountAsStated
       (Js.stripOuterQuotes Fixtures.spfTenIncludesATab) = 10
  /\ Spf.countDnsLookups
       (Js.stripOuterQuotes Fixtures.spfTenIncludesATab) = 11
  /\ Spf.checkSpf (Fixtures.always Fixtures.spfWithTab) "example.com"
     = Ret {| Spf.isValid := false;
              Spf.reason := "Too many DNS lookups (exceeds 10)";
              Spf.spf := None |}.
Proof. repeat split; vm_compute; reflexivity. Qed.


(** ** The selector loop of [checkDkim] *)

(** A failure of a probe ends the loop when its reason holds neither of the
    two word groups that the loop looks for. *)
Lemma checkDkimFrom_failure
  (get : Doh.Resolver) (domain selector : string) (rest : list string)
  (found : list (string * string)) (reason : string) :
  Dkim.validateDkimForSelector get domain selector
  = Ret {| Dkim.isValid := Some false; Dkim.reason := reason |} ->
  Js.includes reason "No DKIM records found" = false ->
  Js.includes reason "No valid DKIM records found" = false ->
  Dkim.checkDkimFrom get domain (selector :: rest) found
  = Ret {| Dkim.checkIsValid := false; Dkim.checkReason := reason;
           Dkim.dkimSelectors := None |}.
Proof.
  intros Hp H1 H2. cbn [Dkim.checkDkimFrom]. rewrite Hp.
  cbn [bind Dkim.isValid Dkim.reason]. now rewrite H1, H2.
Qed.

(** A failure whose reason holds one of them is passed over. *)
Lemma checkDkimFrom_skipped
  (get : Doh.Resolver) (domain selector : string) (rest : list string)
  (found : list (string * string)) (reason : string) :
  Dkim.validateDkimForSelector get domain selector
  = Ret {| Dkim.isValid := Some false; Dkim.reason := reason |} ->
  Js.includes reason "No DKIM records found" = true
  \/ Js.includes reason "No valid DKIM records found" = true ->
  Dkim.checkDkimFrom get domain (selector :: rest) found
  = Dkim.checkDkimFrom get domain rest found.
Proof.
  intros Hp H. cbn [Dkim.checkDkimFrom]. rewrite Hp.
  cbn [bind Dkim.isValid Dkim.reason].
  destruct H as [-> | ->]; [reflexivity |].
  now rewrite andb_false_r.
Qed.

(** The probe of a selector with one tagged answer that fails the
    structural check. *)
Lemma validateDkimForSelector_malformed
  (get : Doh.Resolver) (domain selector : string)
  (response : Doh.ResponseData) (records : list Doh.AnswerRecord)
  (first : Doh.AnswerRecord) :
  get (Dkim.requestPath domain selector) = Ret response ->
  Doh.Answer response = Some records ->
  filter (fun record =>
            Js.includes (Js.toLowerCase (Doh.data record)) "v=dkim1") records
  = [first] ->
  Dkim.isValidDkimRecord (Doh.data first) = false ->
  Dkim.validateDkimForSelector get domain selector
  = Ret {| Dkim.isValid := Some false;
           Dkim.reason := "Invalid DKIM record format for selector "
                          ++ selector ++ " - "
                          ++ Dkim.truncateRecord (Doh.data first) 50 |}.
Proof.
  intros Hg HA Hf Hv. unfold Dkim.validateDkimForSelector.
  rewrite Hg. cbn [bind]. rewrite HA.
  destruct records as [| r rs]; [discriminate Hf |].
  rewrite Hf. change (1 <? length [first])%nat with false. cbv iota.
  now rewrite Hv.
Qed.

(** The structural check wants the version in upper case: a record none of
    whose parts begins with it is rejected, whatever else it holds. *)
Lemma isValidDkimRecord_version (record : string) :
  existsb (fun part => Js.startsWith part "v=DKIM1")
    (map Js.trim (Js.split ";"%char (Js.removeQuotes record))) = false ->
  Dkim.isValidDkimRecord record = false.
Proof. intros H. unfold Dkim.isValidDkimRecord. now rewrite H. Qed.

(** A tagged record none of whose parts begins with the version in upper
    case makes the loop return the failure of its selector at once, provided
    the reason, which quotes the record, holds neither word group. *)
Lemma checkDkimFrom_version
  (get : Doh.Resolver) (domain selector : string) (rest : list string)
  (found : list (string * string)) (response : Doh.ResponseData)
  (records : list Doh.AnswerRecord) (first : Doh.AnswerRecord) :
  get (Dkim.requestPath domain selector) = Ret response ->
  Doh.Answer response = Some records ->
  filter (fun record =>
            Js.includes (Js.toLowerCase (Doh.data record)) "v=dkim1") records
  = [first] ->
  existsb (fun part => Js.startsWith part "v=DKIM1")
    (map Js.trim (Js.split ";"%char (Js.removeQuotes (Doh.data first))))
  = false ->
  DkimSpec.reasonIsPlain selector (DkimSpec.Malformed (Doh.data first))
  = true ->
  Dkim.checkDkimFrom get domain (selector :: rest) found
  = Ret {| Dkim.checkIsValid := false;
           Dkim.checkReason := "Invalid DKIM record format for selector "
                               ++ selector ++ " - "
                               ++ Dkim.truncateRecord (Doh.data first) 50;
           Dkim.dkimSelectors := None |}.
Proof.
  intros Hg HA Hf Hv Hplain.
  unfold DkimSpec.reasonIsPlain in Hplain.
  cbn [DkimSpec.failureReason] in Hplain.
  apply andb_true_iff in Hplain. destruct Hplain as [H1 H2].
  apply negb_true_iff in H1, H2.
  apply checkDkimFrom_failure; [| exact H1 | exact H2].
  apply (validateDkimForSelector_malformed get domain selector response
           records first Hg HA Hf).
  now apply isValidDkimRecord_version.
Qed.

(** C3, on the input where it fails.  The first selector of the provider
    holds one tagged record that fails the structural check, so its probe
    fails with the reason of the record format; the reason quotes the record,
    the record holds the words looked for by the loop, and the loop passes
    the failure over: the check succeeds on the second selector. *)
Theorem malformed_record_with_note_is_skipped :
  Dkim.validateDkimForSelector Fixtures.malformedThenValid "example.com"
    "selector1"
  = Ret {| Dkim.isValid := Some false;
           Dkim.reason := "Invalid DKIM record format for selector selector1 - v=DKIM1; p=KEY; n=No DKIM records found" |}
  /\ Dkim.checkDkim Fixtures.malformedThenValid "example.com"
       (Some "microsoft")
     = Ret {| Dkim.checkIsValid := true;
              Dkim.checkReason := "DKIM records found";
              Dkim.dkimSelectors := Some ["selector2"] |}.
Proof. split; vm_compute; reflexivity. Qed.

(** C9, on the input where it fails.  The one tagged record of the
    selector [google] has its version in lower case and fails the structural
    check, so its probe fails with the reason of the record format; the
    record holds the words looked for by the loop, the failure is passed
    over, and the check succeeds on a later selector. *)
Theorem lower_case_version_with_note_is_skipped :
  Dkim.isValidDkimRecord "v=dkim1;k=rsa;p=K;n=No valid DKIM records found"
  = false
  /\ Dkim.validateDkimForSelector Fixtures.lowerCaseThenValid "example.com"
       "google"
     = Ret {| Dkim.isValid := Some false;
              Dkim.reason := "Invalid DKIM record format for selector google - v=dkim1;k=rsa;p=K;n=No valid DKIM records found" |}
  /\ Dkim.checkDkim Fixtures.lowerCaseThenValid "example.com" None
     = Ret {| Dkim.checkIsValid := true;
              Dkim.checkReason := "DKIM records found";
              Dkim.dkimSelectors := Some ["default"] |}.
Proof. repeat split; vm_compute; reflexivity. Qed.

(** A record with its version in lower case and no such words is rejected
    at once, with the reason that quotes it. *)
Example lower_case_version_rejected :
  Dkim.checkDkim (Fixtures.always Fixtures.lowerCaseVersion) "example.com"
    None
  = Ret {| Dkim.checkIsValid := false;
           Dkim.checkReason := "Invalid DKIM record format for selector google - v=dkim1; k=rsa; p=KEY";
           Dkim.dkimSelectors := None |}.
Proof. vm_compute. reflexivity. Qed.


(** *** The loop against the aggregation of the specification *)

Lemma mapSet_fresh (key value : string) (m : list (string * string)) :
  ~ In key (map fst m) ->
  Dkim.mapSet key value m = (m ++ [(key, value)])%list.
Proof.
  induction m as [| [k v] m IH]; intros H; [reflexivity |].
  cbn [Dkim.mapSet]. cbn [map fst In] in H.
  destruct (String.eqb_spec k key) as [-> | _]; [tauto |].
  cbn [app]. rewrite IH; [reflexivity | tauto].
Qed.

(** The verdict of a probe is the one the classification gives. *)
Lemma validateDkimForSelector_classify
  (get : Doh.Resolver) (domain selector : string)
  (response : Doh.ResponseData) :
  get (Dkim.requestPath domain selector) = Ret response ->
  Dkim.validateDkimForSelector get domain selector
  = Ret match DkimSpec.classify (Doh.Answer response) with
        | DkimSpec.Found =>
            {| Dkim.isValid := Some true;
               Dkim.reason := "All checks passed" |}
        | DkimSpec.NotFound =>
            {| Dkim.isValid := None;
               Dkim.reason := "No DKIM records found for selector "
                              ++ selector |}
        | DkimSpec.NoneTagged =>
            {| Dkim.isValid := Some false;
               Dkim.reason := "No valid DKIM records found for selector "
                              ++ selector |}
        | DkimSpec.Ambiguous =>
            {| Dkim.isValid := Some false;
               Dkim.reason := "Multiple DKIM records found for selector "
                              ++ selector |}
        | DkimSpec.Malformed record =>
            {| Dkim.isValid := Some false;
               Dkim.reason := "Invalid DKIM record format for selector "
                              ++ selector ++ " - "
                              ++ Dkim.truncateRecord record 50 |}
        end.
Proof.
  intros Hg. unfold Dkim.validateDkimForSelector, DkimSpec.classify.
  rewrite Hg. cbn [bind].
  destruct (Doh.Answer response) as [[| r rs] |]; try reflexivity.
  destruct (filter _ (r :: rs)) as [| one [| two more]]; try reflexivity.
  change (1 <? length [one])%nat with false. cbv iota.
  now destruct (Dkim.isValidDkimRecord (Doh.data one)).
Qed.

(** A reason of a missing record is recognised as such by the loop. *)
Lemma includes_prefix (s sub : string) :
  String.prefix sub s = true -> Js.includes s sub = true.
Proof. intros H. destruct s; cbn [Js.includes]; now rewrite H. Qed.

Lemma prefix_append (sub t : string) : String.prefix sub (sub ++ t) = true.
Proof.
  induction sub as [| c sub IH]; [now destruct t |].
  cbn [append String.prefix].
  destruct (ascii_dec c c) as [_ | N]; [exact IH | now elim N].
Qed.

Lemma noneTagged_reason_recognised (selector : string) :
  Js.includes ("No valid DKIM records found for selector " ++ selector)
    "No valid DKIM records found" = true.
Proof.
  apply includes_prefix.
  change ("No valid DKIM records found for selector " ++ selector)
    with ("No valid DKIM records found" ++ (" for selector " ++ selector)).
  apply prefix_append.
Qed.

(** When no probe is rejected by the resolver, the selectors are distinct
    and every reason of an immediate failure is plain, the loop of the source
    returns what the specification describes. *)
Lemma checkDkimFrom_aggregate
  (get : Doh.Resolver) (domain : string) (selectors : list string) :
  forall found : list (string * string),
    (forall s, In s selectors ->
               exists r, get (Dkim.requestPath domain s) = Ret r) ->
    NoDup (map fst found ++ selectors)%list ->
    (forall s, In s selectors ->
               DkimSpec.reasonIsPlain s (DkimSpec.probeOf get domain s)
               = true) ->
    Dkim.checkDkimFrom get domain selectors found
    = Ret (DkimSpec.aggregate
             (map (fun s => (s, DkimSpec.probeOf get domain s)) selectors)
             (map fst found)).
Proof.
  induction selectors as [| s rest IH]; intros found Hret Hnd Hplain.
  - cbn [Dkim.checkDkimFrom map DkimSpec.aggregate].
    now destruct found as [| [k v] found'].
  - destruct (Hret s (or_introl eq_refl)) as [r Hr].
    pose proof (Hplain s (or_introl eq_refl)) as Hs.
    assert (Hrest : forall found',
               map fst found' = map fst found
               \/ map fst found' = (map fst found ++ [s])%list ->
               Dkim.checkDkimFrom get domain rest found'
               = Ret (DkimSpec.aggregate
                        (map (fun s => (s, DkimSpec.probeOf get domain s))
                           rest)
                        (map fst found'))).
    { intros found' Hkeys. apply IH.
      - intros x Hx. apply Hret. now right.
      - destruct Hkeys as [-> | ->].
        + now apply NoDup_remove_1 in Hnd.
        + now rewrite <- app_assoc.
      - intros x Hx. apply Hplain. now right. }
    cbn [Dkim.checkDkimFrom map DkimSpec.aggregate].
    rewrite (validateDkimForSelector_classify get domain s r Hr).
    unfold DkimSpec.reasonIsPlain, DkimSpec.probeOf in Hs |- *.
    rewrite Hr in Hs |- *. cbn [bind].
    destruct (DkimSpec.classify (Doh.Answer r)) as [| | | | record];
      cbn [DkimSpec.failureReason Dkim.isValid Dkim.reason] in Hs |- *.
    + rewrite mapSet_fresh.
      * rewrite Hrest; [now rewrite map_app | right; now rewrite map_app].
      * apply NoDup_remove_2 in Hnd. intros Hin. apply Hnd.
        apply in_or_app. now left.
    + apply Hrest. now left.
    + rewrite noneTagged_reason_recognised, andb_false_r.
      apply Hrest. now left.
    + now rewrite Hs.
    + now rewrite Hs.
Qed.

Lemma selectorsToCheck_NoDup (provider : option string)
  (selectors : list string) :
  Dkim.selectorsToCheck provider = Ret selectors -> NoDup selectors.
Proof.
  assert (Hc : NoDup Dkim.commonDkimSelectors).
  { assert (E : nodup string_dec Dkim.commonDkimSelectors
                = Dkim.commonDkimSelectors) by (vm_compute; reflexivity).
    rewrite <- E. apply NoDup_nodup. }
  unfold Dkim.selectorsToCheck, Dkim.dkimSelectorsForProviders.
  destruct provider as [p |]; [| now intros [= <-]].
  destruct (Js.truthy p); [| now intros [= <-]].
  destruct (String.eqb p "google").
  - intros [= <-]. repeat constructor. intros [].
  - destruct (String.eqb p "microsoft"); [| discriminate].
    intros [= <-]. repeat constructor.
    + intros [H | []]. discriminate H.
    + intros [].
Qed.

(** [checkDkim] returns the aggregation of the specification whenever the
    provider is absent or known, no probe is rejected by the resolver, and
    the reason of every immediate failure is plain. *)
Lemma checkDkim_aggregate
  (get : Doh.Resolver) (domain : string) (provider : option string)
  (selectors : list string) :
  Dkim.selectorsToCheck provider = Ret selectors ->
  (forall s, In s selectors ->
             exists r, get (Dkim.requestPath domain s) = Ret r) ->
  (forall s, In s selectors ->
             DkimSpec.reasonIsPlain s (DkimSpec.probeOf get domain s) = true) ->
  Dkim.checkDkim get domain provider
  = Ret (DkimSpec.aggregate
           (map (fun s => (s, DkimSpec.probeOf get domain s)) selectors) []).
Proof.
  intros Hsel Hret Hplain. unfold Dkim.checkDkim. rewrite Hsel. cbn [bind].
  apply (checkDkimFrom_aggregate get domain selectors [] Hret);
    [| exact Hplain].
  cbn [map app]. exact (selectorsToCheck_NoDup provider selectors Hsel).
Qed.

Example checkDkim_aggregate_ex :
  Dkim.checkDkim (Fixtures.always Fixtures.validDkimAnswer) "example.com"
    (Some "microsoft")
  = Ret {| Dkim.checkIsValid := true;
           Dkim.checkReason := "DKIM records found";
           Dkim.dkimSelectors := Some ["selector1"; "selector2"] |}.
Proof.
  rewrite (checkDkim_aggregate (Fixtures.always Fixtures.validDkimAnswer)
             "example.com" (Some "microsoft") ["selector1"; "selector2"]
             eq_refl).
  - reflexivity.
  - intros s _. now eexists.
  - intros s [<- | [<- | []]]; reflexivity.
Qed.

(** * Further properties of the validators *)

(** ** Rejections of the resolver *)

(** The loop goes through selectors whose probes pass. *)
Lemma checkDkimFrom_pass_prefix
  (get : Doh.Resolver) (domain : string) (pre rest : list string) :
  forall found : list (string * string),
    (forall x, In x pre -> Derived.probePasses get domain x = true) ->
    exists found',
      Dkim.checkDkimFrom get domain (pre ++ rest)%list found
      = Dkim.checkDkimFrom get domain rest found'.
Proof.
  induction pre as [| x pre IH]; intros found Hpass.
  - now exists found.
  - pose proof (Hpass x (or_introl eq_refl)) as Hx.
    unfold Derived.probePasses in Hx.
    destruct (get (Dkim.requestPath domain x)) as [r | e] eqn:Hg;
      [| discriminate Hx].
    assert (Hpre : forall y, In y pre ->
                             Derived.probePasses get domain y = true).
    { intros y Hy. apply Hpass. now right. }
    change ((x :: pre) ++ rest)%list with (x :: (pre ++ rest))%list.
    cbn [Dkim.checkDkimFrom].
    rewrite (validateDkimForSelector_classify get domain x r Hg).
    cbn [bind].
    destruct (DkimSpec.classify (Doh.Answer r)) as [| | | | record];
      cbn [DkimSpec.failureReason] in Hx; try discriminate Hx;
      cbn [Dkim.isValid Dkim.reason].
    + apply IH, Hpre.
    + apply IH, Hpre.
    + rewrite noneTagged_reason_recognised, andb_false_r. apply IH, Hpre.
Qed.

(** X1.  A rejection of the resolver comes out of the validator unchanged:
    of [checkSpf], [checkDmarc] and [checkMx] when their one request is
    rejected, and of [checkDkim] when the request of a selector is rejected
    after selectors whose probes passed. *)
Theorem rejection_propagates
  (get : Doh.Resolver) (domain : string) (e : error) :
  (get (Spf.requestPath domain) = Throw e ->
   Spf.checkSpf get domain = Throw e)
  /\ (get (Dmarc.requestPath domain) = Throw e ->
      Dmarc.checkDmarc get domain = Throw e)
  /\ (get (Mx.requestPath domain) = Throw e ->
      forall numberToString,
        Mx.checkMx numberToString get domain = Throw e)
  /\ (forall (provider : option string) (pre rest : list string)
             (selector : string),
         Dkim.selectorsToCheck provider = Ret (pre ++ selector :: rest)%list ->
         (forall x, In x pre -> Derived.probePasses get domain x = true) ->
         get (Dkim.requestPath domain selector) = Throw e ->
         Dkim.checkDkim get domain provider = Throw e).
Proof.
  repeat split.
  - intros Hg. unfold Spf.checkSpf. now rewrite Hg.
  - intros Hg. unfold Dmarc.checkDmarc. now rewrite Hg.
  - intros Hg nts. unfold Mx.checkMx. now rewrite Hg.
  - intros provider pre rest selector Hsel Hpass Hg.
    unfold Dkim.checkDkim. rewrite Hsel. cbn [bind].
    destruct (checkDkimFrom_pass_prefix get domain pre (selector :: rest)
                [] Hpass) as [found' ->].
    cbn [Dkim.checkDkimFrom]. unfold Dkim.validateDkimForSelector.
    now rewrite Hg.
Qed.

Lemma rejection_propagates_witness :
  Spf.checkSpf Cases.offline "example.com"
  = Throw (Rejected "Network Error")
  /\ Dmarc.checkDmarc Cases.offline "example.com"
     = Throw (Rejected "Network Error")
  /\ Mx.checkMx Mx.decimalNumberToString Cases.offline "example.com"
     = Throw (Rejected "Network Error")
  /\ Dkim.checkDkim Cases.offlineAfterGoogle "example.com" None
     = Throw (Rejected "Network Error").
Proof.
  destruct (rejection_propagates Cases.offline "example.com"
              (Rejected "Network Error")) as (Hspf & Hdmarc & Hmx & _).
  destruct (rejection_propagates Cases.offlineAfterGoogle "example.com"
              (Rejected "Network Error")) as (_ & _ & _ & Hdkim).
  split; [exact (Hspf eq_refl) |].
  split; [exact (Hdmarc eq_refl) |].
  split; [exact (Hmx eq_refl Mx.decimalNumberToString) |].
  apply (Hdkim None ["google"] (tl (tl Dkim.commonDkimSelectors))
           "selector1" eq_refl).
  - intros x [<- | []]. reflexivity.
  - reflexivity.
Defined.

(** ** The selectors that [checkDkim] reports *)

Lemma probeIsValid_result
  (get : Doh.Resolver) (domain selector : string)
  (result : Dkim.DkimValidationResult) :
  Dkim.validateDkimForSelector get domain selector = Ret result ->
  Derived.probeIsValid get domain selector
  = match Dkim.isValid result with Some true => true | _ => false end.
Proof. intros H. unfold Derived.probeIsValid. now rewrite H. Qed.

Lemma checkDkimFrom_valid
  (get : Doh.Resolver) (domain : string) (selectors : list string) :
  forall (found : list (string * string)) (result : Dkim.DkimCheckResult),
    NoDup (map fst found ++ selectors)%list ->
    Dkim.checkDkimFrom get domain selectors found = Ret result ->
    Dkim.checkIsValid result = true ->
    Dkim.checkReason result = "DKIM records found"
    /\ Dkim.dkimSelectors result
       = Some (map fst found
               ++ filter (Derived.probeIsValid get domain) selectors)%list
    /\ (map fst found
        ++ filter (Derived.probeIsValid get domain) selectors)%list <> [].
Proof.
  induction selectors as [| s rest IH]; intros found result Hnd Hrun Hvalid.
  - cbn [Dkim.checkDkimFrom] in Hrun. cbn [filter]. rewrite app_nil_r.
    destruct found as [| kv found']; cbn [length Nat.ltb Nat.leb] in Hrun;
      injection Hrun as <-; [discriminate Hvalid |].
    repeat split. discriminate.
  - cbn [Dkim.checkDkimFrom] in Hrun.
    destruct (Dkim.validateDkimForSelector get domain s) as [r | e] eqn:Hp;
      [| discriminate Hrun].
    cbn [bind] in Hrun. cbn [filter].
    rewrite (probeIsValid_result get domain s r Hp).
    destruct (Dkim.isValid r) as [[|] |].
    + rewrite mapSet_fresh in Hrun.
      * destruct (IH (found ++ [(s, Dkim.reason r)])%list result)
          as (H1 & H2 & H3); try assumption.
        { rewrite map_app, <- app_assoc. exact Hnd. }
        rewrite map_app, <- app_assoc in H2, H3. now repeat split.
      * apply NoDup_remove_2 in Hnd. intros Hin. apply Hnd.
        apply in_or_app. now left.
    + destruct (negb _ && negb _).
      * injection Hrun as <-. discriminate Hvalid.
      * apply (IH found result); try assumption.
        now apply NoDup_remove_1 in Hnd.
    + apply (IH found result); try assumption.
      now apply NoDup_remove_1 in Hnd.
Qed.

Lemma checkDkimFrom_invalid
  (get : Doh.Resolver) (domain : string) (selectors : list string) :
  forall (found : list (string * string)) (result : Dkim.DkimCheckResult),
    Dkim.checkDkimFrom get domain selectors found = Ret result ->
    Dkim.checkIsValid result = false ->
    Dkim.dkimSelectors result = None.
Proof.
  induction selectors as [| s rest IH]; intros found result Hrun Hinvalid.
  - cbn [Dkim.checkDkimFrom] in Hrun.
    destruct (0 <? length found)%nat; injection Hrun as <-;
      [discriminate Hinvalid | reflexivity].
  - cbn [Dkim.checkDkimFrom] in Hrun.
    destruct (Dkim.validateDkimForSelector get domain s) as [r | e];
      [| discriminate Hrun].
    cbn [bind] in Hrun.
    destruct (Dkim.isValid r) as [[|] |];
      try (eapply IH; eassumption).
    destruct (negb _ && negb _); [| eapply IH; eassumption].
    now injection Hrun as <-.
Qed.

(** X3.  A successful result of [checkDkim] lists exactly the selectors of
    the list whose probe found a valid record, in the order of the list, and
    there is at least one; its reason is the one of the records found.  A
    failed result lists no selector. *)
Theorem checkDkim_reports_valid_selectors
  (get : Doh.Resolver) (domain : string) (provider : option string)
  (selectors : list string) (result : Dkim.DkimCheckResult) :
  Dkim.selectorsToCheck provider = Ret selectors ->
  Dkim.checkDkim get domain provider = Ret result ->
  (Dkim.checkIsValid result = true ->
   Dkim.checkReason result = "DKIM records found"
   /\ Dkim.dkimSelectors result
      = Some (filter (Derived.probeIsValid get domain) selectors)
   /\ filter (Derived.probeIsValid get domain) selectors <> [])
  /\ (Dkim.checkIsValid result = false ->
      Dkim.dkimSelectors result = None).
Proof.
  intros Hsel Hrun. unfold Dkim.checkDkim in Hrun. rewrite Hsel in Hrun.
  cbn [bind] in Hrun. split; intros Hv.
  - apply (checkDkimFrom_valid get domain selectors [] result);
      try assumption.
    cbn [map app]. exact (selectorsToCheck_NoDup provider selectors Hsel).
  - now apply (checkDkimFrom_invalid get domain selectors [] result).
Qed.

Lemma checkDkim_reports_valid_selectors_witness :
  Some ["k1"; "mail"]
  = Some (filter (Derived.probeIsValid Cases.twoValid "example.com")
            Dkim.commonDkimSelectors)
  /\ filter (Derived.probeIsValid Cases.twoValid "example.com")
       Dkim.commonDkimSelectors <> [].
Proof.
  destruct (checkDkim_reports_valid_selectors Cases.twoValid "example.com"
              None Dkim.commonDkimSelectors
              {| Dkim.checkIsValid := true;
                 Dkim.checkReason := "DKIM records found";
                 Dkim.dkimSelectors := Some ["k1"; "mail"] |}
              eq_refl eq_refl) as [Hvalid _].
  exact (proj2 (Hvalid eq_refl)).
Defined.

(** ** [checkDkim] when no record is malformed *)

Lemma selectorsToCheck_common (provider : option string)
  (selectors : list string) :
  Dkim.selectorsToCheck provider = Ret selectors ->
  forall s, In s selectors -> In s Dkim.commonDkimSelectors.
Proof.
  unfold Dkim.selectorsToCheck, Dkim.dkimSelectorsForProviders.
  destruct provider as [p |]; [| now intros [= <-]].
  destruct (Js.truthy p); [| now intros [= <-]].
  destruct (String.eqb p "google").
  - intros [= <-] s [<- | []]. cbn. tauto.
  - destruct (String.eqb p "microsoft"); [| discriminate].
    intros [= <-] s [<- | [<- | []]]; cbn; tauto.
Qed.

(** The reason of an ambiguous selector of the configuration holds neither
    word group. *)
Lemma ambiguous_reason_plain (s : string) :
  In s Dkim.commonDkimSelectors ->
  DkimSpec.reasonIsPlain s DkimSpec.Ambiguous = true.
Proof.
  assert (H : forallb (fun s => DkimSpec.reasonIsPlain s DkimSpec.Ambiguous)
                Dkim.commonDkimSelectors = true)
    by (vm_compute; reflexivity).
  intros Hin. exact (proj1 (forallb_forall _ _) H s Hin).
Qed.

(** X4.  When the provider is absent or known, every probe is answered and
    no selector holds a malformed record, [checkDkim] returns: the failure of
    the first selector, in the order of the list, that holds more than one
    tagged record; otherwise success with the selectors that hold a valid
    record, if there is one; otherwise the failure of the missing records. *)
Theorem checkDkim_without_malformed
  (get : Doh.Resolver) (domain : string) (provider : option string)
  (selectors : list string) :
  Dkim.selectorsToCheck provider = Ret selectors ->
  (forall s, In s selectors ->
             exists r, get (Dkim.requestPath domain s) = Ret r) ->
  (forall s record, In s selectors ->
                    DkimSpec.probeOf get domain s
                    <> DkimSpec.Malformed record) ->
  Dkim.checkDkim get domain provider
  = Ret (DkimSpec.aggregate
           (map (fun s => (s, DkimSpec.probeOf get domain s)) selectors) []).
Proof.
  intros Hsel Hret Hwell.
  apply (checkDkim_aggregate get domain provider selectors Hsel Hret).
  intros s Hs.
  destruct (DkimSpec.probeOf get domain s) as [| | | | record] eqn:E;
    try reflexivity.
  - apply ambiguous_reason_plain.
    exact (selectorsToCheck_common provider selectors Hsel s Hs).
  - now elim (Hwell s record Hs).
Qed.

Lemma checkDkim_without_malformed_witness :
  Dkim.checkDkim Cases.ambiguousSecond "example.com" (Some "microsoft")
  = Ret {| Dkim.checkIsValid := false;
           Dkim.checkReason :=
             "Multiple DKIM records found for selector selector2";
           Dkim.dkimSelectors := None |}.
Proof.
  apply (checkDkim_without_malformed Cases.ambiguousSecond "example.com"
           (Some "microsoft") ["selector1"; "selector2"] eq_refl).
  - intros s [<- | [<- | []]]; now eexists.
  - intros s record [<- | [<- | []]]; discriminate.
Defined.


(** ** What [countDnsLookups] reads of a record *)

Lemma substringFrom_app (p s : string) :
  Js.substringFrom (String.length p) (p ++ s) = s.
Proof. induction p as [| c p IH]; [reflexivity | exact IH]. Qed.

Lemma substringFrom_short (n : nat) (s : string) :
  String.length s <= n -> Js.substringFrom n s = "".
Proof.
  revert s. induction n as [| n IH]; intros [| c s] H; try reflexivity.
  - cbn in H. lia.
  - cbn [Js.substringFrom]. apply IH. cbn in H. lia.
Qed.

(** X5.  [countDnsLookups] drops the first six code units of its argument
    without looking at them: two texts that differ in these only have the
    same count, and a text of at most six code units counts 0. *)
Theorem countDnsLookups_drops_prefix :
  (forall p q s : string,
      String.length p = 6 -> String.length q = 6 ->
      Spf.countDnsLookups (p ++ s) = Spf.countDnsLookups (q ++ s))
  /\ (forall r : string,
         String.length r <= 6 -> Spf.countDnsLookups r = 0).
Proof.
  split.
  - intros p q s Hp Hq. unfold Spf.countDnsLookups, Spf.mechanisms.
    rewrite <- Hp at 1. rewrite <- Hq. now rewrite !substringFrom_app.
  - intros r Hr. unfold Spf.countDnsLookups, Spf.mechanisms.
    now rewrite (substringFrom_short 6 r Hr).
Qed.

Lemma countDnsLookups_drops_prefix_witness :
  Spf.countDnsLookups ("v=spf1" ++ " a mx -all")
  = Spf.countDnsLookups ("garble" ++ " a mx -all")
  /\ Spf.countDnsLookups "a mx" = 0.
Proof.
  destruct countDnsLookups_drops_prefix as [Hprefix Hshort].
  split.
  - exact (Hprefix "v=spf1" "garble" " a mx -all" eq_refl eq_refl).
  - apply Hshort. cbn. lia.
Defined.

Lemma forallb_isTerm_app (l1 l2 : list string) :
  forallb SpfSpec.isTerm (l1 ++ l2) = true ->
  forallb SpfSpec.isTerm l1 = true /\ forallb SpfSpec.isTerm l2 = true.
Proof. rewrite forallb_app. apply andb_true_iff. Qed.

(** X6.  The count of a record written from two lists of terms is the sum
    of the counts of the records written from each, and no count exceeds the
    number of tokens read. *)
Theorem countDnsLookups_additive :
  (forall l1 l2 : list string,
      forallb SpfSpec.isTerm (l1 ++ l2) = true ->
      Spf.countDnsLookups (SpfSpec.recordOf (l1 ++ l2))
      = Spf.countDnsLookups (SpfSpec.recordOf l1)
        + Spf.countDnsLookups (SpfSpec.recordOf l2))
  /\ (forall r : string,
         Spf.countDnsLookups r <= length (Spf.mechanisms r)).
Proof.
  split.
  - intros l1 l2 H. destruct (forallb_isTerm_app l1 l2 H) as [H1 H2].
    unfold Spf.countDnsLookups.
    rewrite (mechanisms_recordOf _ H), (mechanisms_recordOf _ H1),
      (mechanisms_recordOf _ H2).
    rewrite !lookupsOf_countTokens. apply countTokens_app.
  - intros r. unfold Spf.countDnsLookups.
    rewrite lookupsOf_countTokens. unfold SpfSpec.countTokens.
    apply filter_length_le.
Qed.

Lemma countDnsLookups_additive_witness :
  Spf.countDnsLookups
    (SpfSpec.recordOf (["a"; "-mx:example.com"] ++ ["include:x.org"; "~all"]))
  = Spf.countDnsLookups (SpfSpec.recordOf ["a"; "-mx:example.com"])
    + Spf.countDnsLookups (SpfSpec.recordOf ["include:x.org"; "~all"]).
Proof.
  exact (proj1 countDnsLookups_additive
           ["a"; "-mx:example.com"] ["include:x.org"; "~all"] eq_refl).
Defined.

Lemma prefix_split (p s : string) :
  String.prefix p s = true -> exists x, s = p ++ x.
Proof.
  revert s. induction p as [| c p IH]; intros s H.
  - now exists s.
  - destruct s as [| d s]; [discriminate H |]. cbn [String.prefix] in H.
    destruct (ascii_dec c d) as [<- | _]; [| discriminate H].
    destruct (IH s H) as [x ->]. now exists x.
Qed.

(** The counting loop has no branch for the address mechanisms nor for
    [all]. *)
Lemma neverCounted_incursLookup (m : string) :
  Derived.neverCounted m = true -> SpfSpec.incursLookup m = false.
Proof.
  unfold Derived.neverCounted, Js.startsWith.
  rewrite !orb_true_iff. intros [[H | H] | H].
  - destruct (prefix_split _ _ H) as [x ->]. reflexivity.
  - destruct (prefix_split _ _ H) as [x ->]. reflexivity.
  - apply String.eqb_eq in H. now subst m.
Qed.

Lemma countTokens_insert_uncounted (l1 l2 : list string) (t : string) :
  Derived.neverCounted (Spf.skipQualifier t) = true ->
  SpfSpec.countTokens (l1 ++ t :: l2) = SpfSpec.countTokens (l1 ++ l2).
Proof.
  intros H. rewrite skipQualifier_stated in H.
  rewrite !countTokens_app, countTokens_cons.
  now rewrite (neverCounted_incursLookup _ H).
Qed.

(** X7.  A token that, with or without a qualifier, is [all] or begins
    with [ip4:] or [ip6:] adds nothing to the count, wherever it stands among
    the tokens. *)
Theorem address_mechanisms_not_counted :
  (forall (r r' : string) (l1 l2 : list string) (t : string),
      Spf.mechanisms r = (l1 ++ l2)%list ->
      Spf.mechanisms r' = (l1 ++ t :: l2)%list ->
      Derived.neverCounted (Spf.skipQualifier t) = true ->
      Spf.countDnsLookups r' = Spf.countDnsLookups r)
  /\ (forall (l1 l2 : list string) (t : string),
         forallb SpfSpec.isTerm (l1 ++ t :: l2) = true ->
         Derived.neverCounted (Spf.skipQualifier t) = true ->
         Spf.countDnsLookups (SpfSpec.recordOf (l1 ++ t :: l2))
         = Spf.countDnsLookups (SpfSpec.recordOf (l1 ++ l2))).
Proof.
  split.
  - intros r r' l1 l2 t Hr Hr' Ht. unfold Spf.countDnsLookups.
    rewrite Hr, Hr', !lookupsOf_countTokens.
    now apply countTokens_insert_uncounted.
  - intros l1 l2 t H Ht. unfold Spf.countDnsLookups.
    rewrite (mechanisms_recordOf _ H).
    destruct (forallb_isTerm_app _ _ H) as [H1 H2].
    cbn [forallb] in H2. apply andb_true_iff in H2.
    assert (H12 : forallb SpfSpec.isTerm (l1 ++ l2) = true).
    { rewrite forallb_app, H1. now destruct H2 as [_ ->]. }
    rewrite (mechanisms_recordOf _ H12), !lookupsOf_countTokens.
    now apply countTokens_insert_uncounted.
Qed.

Lemma address_mechanisms_not_counted_witness :
  Spf.countDnsLookups "v=spf1 a -ip4:192.168.1.1 mx"
  = Spf.countDnsLookups "v=spf1 a mx"
  /\ Spf.countDnsLookups
       (SpfSpec.recordOf (["include:x.org"] ++ "~all" :: ["mx"]))
     = Spf.countDnsLookups (SpfSpec.recordOf (["include:x.org"] ++ ["mx"])).
Proof.
  destruct address_mechanisms_not_counted as [Hrecords Hterms].
  split.
  - exact (Hrecords "v=spf1 a mx" "v=spf1 a -ip4:192.168.1.1 mx"
             ["a"] ["mx"] "-ip4:192.168.1.1" eq_refl eq_refl eq_refl).
  - exact (Hterms ["include:x.org"] ["mx"] "~all" eq_refl eq_refl).
Defined.

(** ** The verdicts of [checkSpf] *)

Lemma statusNotZero_inv (r : Doh.ResponseData) :
  Doh.statusNotZero r = false -> Doh.Status r = Some 0%Z.
Proof.
  unfold Doh.statusNotZero.
  destruct (Doh.Status r) as [[| p | p] |]; now intros H.
Qed.

Lemma filter_nonempty {A : Type} (f : A -> bool) (l : list A) (j : nat)
  (b : A) :
  nth_error l j = Some b -> f b = true -> 1 <= length (filter f l).
Proof.
  intros Hj Hb. apply nth_error_In in Hj.
  assert (Hin : In b (filter f l)) by (apply filter_In; now split).
  destruct (filter f l); [contradiction | cbn; lia].
Qed.

(** Two positions of a list that pass a filter leave it with two elements
    at least. *)
Lemma filter_two {A : Type} (f : A -> bool) (l : list A) :
  forall (i j : nat) (a b : A),
    i <> j -> nth_error l i = Some a -> nth_error l j = Some b ->
    f a = true -> f b = true -> 2 <= length (filter f l).
Proof.
  induction l as [| x l IH]; intros i j a b Hij Hi Hj Ha Hb.
  - destruct i; discriminate Hi.
  - destruct i as [| i], j as [| j]; cbn [nth_error] in Hi, Hj.
    + now elim Hij.
    + injection Hi as ->. cbn [filter]. rewrite Ha. cbn [length].
      pose proof (filter_nonempty f l j b Hj Hb). lia.
    + injection Hj as ->. cbn [filter]. rewrite Hb. cbn [length].
      pose proof (filter_nonempty f l i a Hi Ha). lia.
    + assert (Hij' : i <> j) by congruence.
      pose proof (IH i j a b Hij' Hi Hj Ha Hb). cbn [filter].
      destruct (f x); cbn [length]; lia.
Qed.

(** X8.  A successful result of [checkSpf] comes from a response with
    status 0 that holds exactly one SPF record; it carries the text of that
    record without its outer quotes, and this text begins with the version
    in some case and counts at most 10 lookups. *)
Theorem checkSpf_valid_inversion
  (get : Doh.Resolver) (domain : string) (result : Spf.SpfCheckResult) :
  Spf.checkSpf get domain = Ret result ->
  Spf.isValid result = true ->
  exists (response : Doh.ResponseData) (answer : list Doh.AnswerRecord)
         (first : Doh.AnswerRecord),
    get (Spf.requestPath domain) = Ret response
    /\ Doh.Status response = Some 0%Z
    /\ Doh.Answer response = Some answer
    /\ filter Spf.isSpfRecord answer = [first]
    /\ result = {| Spf.isValid := true; Spf.reason := "Valid SPF record";
                   Spf.spf := Some (Js.stripOuterQuotes (Doh.data first)) |}
    /\ Js.startsWith
         (Js.toLowerCase (Js.stripOuterQuotes (Doh.data first))) "v=spf1"
       = true
    /\ Spf.countDnsLookups (Js.stripOuterQuotes (Doh.data first)) <= 10.
Proof.
  intros Hrun Hvalid. unfold Spf.checkSpf in Hrun.
  destruct (get (Spf.requestPath domain)) as [response | e] eqn:Hg;
    [| discriminate Hrun].
  cbn [bind] in Hrun.
  destruct (Doh.statusNotZero response) eqn:Hs;
    [injection Hrun as <-; discriminate Hvalid |].
  destruct (Doh.Answer response) as [[| a l] |] eqn:HA;
    try (injection Hrun as <-; discriminate Hvalid).
  destruct (1 <? length (filter Spf.isSpfRecord (a :: l)))%nat;
    [injection Hrun as <-; discriminate Hvalid |].
  destruct (filter Spf.isSpfRecord (a :: l)) as [| first [| y l']] eqn:Hf;
    try (injection Hrun as <-; discriminate Hvalid).
  destruct (10 <? Spf.countDnsLookups (Js.stripOuterQuotes (Doh.data first)))%nat
    eqn:Hc; [injection Hrun as <-; discriminate Hvalid |].
  injection Hrun as <-.
  exists response, (a :: l), first.
  repeat split; try assumption; try reflexivity.
  - now apply statusNotZero_inv.
  - assert (Hin : In first (filter Spf.isSpfRecord (a :: l)))
      by (rewrite Hf; now left).
    apply filter_In in Hin. exact (proj2 Hin).
  - apply Nat.ltb_ge in Hc. exact Hc.
Qed.

Lemma checkSpf_valid_inversion_witness :
  exists (response : Doh.ResponseData) (answer : list Doh.AnswerRecord)
         (first : Doh.AnswerRecord),
    Fixtures.always Fixtures.spfGoogle (Spf.requestPath "example.com")
    = Ret response
    /\ Doh.Status response = Some 0%Z
    /\ Doh.Answer response = Some answer
    /\ filter Spf.isSpfRecord answer = [first]
    /\ {| Spf.isValid := true; Spf.reason := "Valid SPF record";
          Spf.spf := Some "v=spf1 include:_spf.google.com ~all" |}
       = {| Spf.isValid := true; Spf.reason := "Valid SPF record";
            Spf.spf := Some (Js.stripOuterQuotes (Doh.data first)) |}
    /\ Js.startsWith
         (Js.toLowerCase (Js.stripOuterQuotes (Doh.data first))) "v=spf1"
       = true
    /\ Spf.countDnsLookups (Js.stripOuterQuotes (Doh.data first)) <= 10.
Proof.
  exact (checkSpf_valid_inversion (Fixtures.always Fixtures.spfGoogle)
           "example.com"
           {| Spf.isValid := true; Spf.reason := "Valid SPF record";
              Spf.spf := Some "v=spf1 include:_spf.google.com ~all" |}
           eq_refl eq_refl).
Defined.

(** X9.  When the response has status 0 and two of its answers are SPF
    records, [checkSpf] fails with the reason of the multiple records,
    whatever the records hold after the version. *)
Theorem checkSpf_multiple_records
  (get : Doh.Resolver) (domain : string) (response : Doh.ResponseData)
  (answer : list Doh.AnswerRecord) (i j : nat) (a b : Doh.AnswerRecord) :
  get (Spf.requestPath domain) = Ret response ->
  Doh.Status response = Some 0%Z ->
  Doh.Answer response = Some answer ->
  i <> j ->
  nth_error answer i = Some a -> nth_error answer j = Some b ->
  Spf.isSpfRecord a = true -> Spf.isSpfRecord b = true ->
  Spf.checkSpf get domain
  = Ret {| Spf.isValid := false; Spf.reason := "Multiple SPF records found";
           Spf.spf := None |}.
Proof.
  intros Hg Hs HA Hij Hi Hj Ha Hb. unfold Spf.checkSpf.
  rewrite Hg. cbn [bind]. rewrite (statusNotZero_false _ Hs), HA.
  destruct answer as [| x l]; [destruct i; discriminate Hi |].
  pose proof (filter_two Spf.isSpfRecord (x :: l) i j a b Hij Hi Hj Ha Hb)
    as H2.
  apply Nat.ltb_lt in H2. now rewrite H2.
Qed.

Lemma checkSpf_multiple_records_witness :
  Spf.checkSpf (Fixtures.always Cases.twoSpfRecords) "example.com"
  = Ret {| Spf.isValid := false; Spf.reason := "Multiple SPF records found";
           Spf.spf := None |}.
Proof.
  apply (checkSpf_multiple_records (Fixtures.always Cases.twoSpfRecords)
           "example.com" Cases.twoSpfRecords
           [ {| Doh.data := "v=spf1 include:_spf.google.com ~all" |};
             {| Doh.data := "some=other txt record" |};
             {| Doh.data := "V=SPF1 ip4:192.168.1.1 -all" |} ]
           0 2
           {| Doh.data := "v=spf1 include:_spf.google.com ~all" |}
           {| Doh.data := "V=SPF1 ip4:192.168.1.1 -all" |});
    try reflexivity.
  discriminate.
Defined.

(** ** The verdicts of [checkDmarc] *)

Lemma removeQuotes_clean (s : string) :
  Js.allChars (fun c => negb (Js.isQuote c)) (Js.removeQuotes s) = true.
Proof.
  induction s as [| c s IH]; [reflexivity |]. cbn [Js.removeQuotes].
  destruct (Js.isQuote c) eqn:Q; [exact IH |].
  cbn [Js.allChars]. now rewrite Q, IH.
Qed.

Lemma removeQuotes_of_clean (s : string) :
  Js.allChars (fun c => negb (Js.isQuote c)) s = true ->
  Js.removeQuotes s = s.
Proof.
  induction s as [| c s IH]; [reflexivity |]. cbn [Js.allChars].
  rewrite andb_true_iff, negb_true_iff. intros [Hc Hs].
  cbn [Js.removeQuotes]. now rewrite Hc, (IH Hs).
Qed.

(** X10.  A successful result of [checkDmarc] comes from a response with
    status 0 that holds exactly one tagged record; it carries the text of
    that record with every quote removed, and this text, put in lower case,
    begins with the version and holds the two required tags. *)
Theorem checkDmarc_valid_inversion
  (get : Doh.Resolver) (domain : string) (result : Dmarc.DmarcCheckResult) :
  Dmarc.checkDmarc get domain = Ret result ->
  Dmarc.isValid result = true ->
  exists (response : Doh.ResponseData) (answer : list Doh.AnswerRecord)
         (first : Doh.AnswerRecord),
    get (Dmarc.requestPath domain) = Ret response
    /\ Doh.Status response = Some 0%Z
    /\ Doh.Answer response = Some answer
    /\ filter Derived.isDmarcTagged answer = [first]
    /\ result = {| Dmarc.isValid := true;
                   Dmarc.reason := "Valid DMARC record";
                   Dmarc.dmarc := Some (Js.removeQuotes (Doh.data first)) |}
    /\ Js.allChars (fun c => negb (Js.isQuote c))
         (Js.removeQuotes (Doh.data first)) = true
    /\ Js.startsWith (Js.toLowerCase (Js.removeQuotes (Doh.data first)))
         "v=dmarc1" = true
    /\ Js.includes (Js.toLowerCase (Js.removeQuotes (Doh.data first))) "p="
       = true
    /\ Js.includes (Js.toLowerCase (Js.removeQuotes (Doh.data first))) "rua="
       = true.
Proof.
  intros Hrun Hvalid. unfold Dmarc.checkDmarc in Hrun.
  destruct (get (Dmarc.requestPath domain)) as [response | e] eqn:Hg;
    [| discriminate Hrun].
  cbn [bind] in Hrun.
  destruct (Doh.statusNotZero response) eqn:Hs;
    [injection Hrun as <-; discriminate Hvalid |].
  destruct (Doh.Answer response) as [[| a l] |] eqn:HA;
    try (injection Hrun as <-; discriminate Hvalid).
  change (filter
            (fun record =>
               Js.includes (Js.toLowerCase (Doh.data record)) "v=dmarc1")
            (a :: l))
    with (filter Derived.isDmarcTagged (a :: l)) in Hrun.
  destruct (filter Derived.isDmarcTagged (a :: l)) as [| first others] eqn:Hf;
    [injection Hrun as <-; discriminate Hvalid |].
  destruct others as [| second others];
    [| injection Hrun as <-; discriminate Hvalid].
  change (1 <? length [first])%nat with false in Hrun. cbv iota in Hrun.
  destruct (Js.startsWith
              (Js.toLowerCase (Js.removeQuotes (Doh.data first))) "v=dmarc1")
    eqn:H1; [| injection Hrun as <-; discriminate Hvalid].
  destruct (Js.includes
              (Js.toLowerCase (Js.removeQuotes (Doh.data first))) "p=")
    eqn:H2; [| injection Hrun as <-; discriminate Hvalid].
  destruct (Js.includes
              (Js.toLowerCase (Js.removeQuotes (Doh.data first))) "rua=")
    eqn:H3; [| injection Hrun as <-; discriminate Hvalid].
  injection Hrun as <-.
  exists response, (a :: l), first.
  repeat split; try assumption; try reflexivity.
  - now apply statusNotZero_inv.
  - apply removeQuotes_clean.
Qed.

Lemma checkDmarc_valid_inversion_witness :
  exists (response : Doh.ResponseData) (answer : list Doh.AnswerRecord)
         (first : Doh.AnswerRecord),
    Fixtures.always Cases.dmarcValid (Dmarc.requestPath "example.com")
    = Ret response
    /\ Doh.Status response = Some 0%Z
    /\ Doh.Answer response = Some answer
    /\ filter Derived.isDmarcTagged answer = [first]
    /\ {| Dmarc.isValid := true; Dmarc.reason := "Valid DMARC record";
          Dmarc.dmarc :=
            Some "v=DMARC1; p=none; rua=mailto:dmarc@example.com" |}
       = {| Dmarc.isValid := true; Dmarc.reason := "Valid DMARC record";
            Dmarc.dmarc := Some (Js.removeQuotes (Doh.data first)) |}
    /\ Js.allChars (fun c => negb (Js.isQuote c))
         (Js.removeQuotes (Doh.data first)) = true
    /\ Js.startsWith (Js.toLowerCase (Js.removeQuotes (Doh.data first)))
         "v=dmarc1" = true
    /\ Js.includes (Js.toLowerCase (Js.removeQuotes (Doh.data first))) "p="
       = true
    /\ Js.includes (Js.toLowerCase (Js.removeQuotes (Doh.data first))) "rua="
       = true.
Proof.
  exact (checkDmarc_valid_inversion (Fixtures.always Cases.dmarcValid)
           "example.com"
           {| Dmarc.isValid := true; Dmarc.reason := "Valid DMARC record";
              Dmarc.dmarc :=
                Some "v=DMARC1; p=none; rua=mailto:dmarc@example.com" |}
           eq_refl eq_refl).
Defined.

(** X11.  When the response has status 0 and two of its answers carry the
    version tag, [checkDmarc] fails with the reason of the multiple records,
    whether or not either record is well formed. *)
Theorem checkDmarc_multiple_records
  (get : Doh.Resolver) (domain : string) (response : Doh.ResponseData)
  (answer : list Doh.AnswerRecord) (i j : nat) (a b : Doh.AnswerRecord) :
  get (Dmarc.requestPath domain) = Ret response ->
  Doh.Status response = Some 0%Z ->
  Doh.Answer response = Some answer ->
  i <> j ->
  nth_error answer i = Some a -> nth_error answer j = Some b ->
  Derived.isDmarcTagged a = true -> Derived.isDmarcTagged b = true ->
  Dmarc.checkDmarc get domain
  = Ret {| Dmarc.isValid := false;
           Dmarc.reason := "Multiple DMARC records found";
           Dmarc.dmarc := None |}.
Proof.
  intros Hg Hs HA Hij Hi Hj Ha Hb. unfold Dmarc.checkDmarc.
  rewrite Hg. cbn [bind]. rewrite (statusNotZero_false _ Hs), HA.
  destruct answer as [| x l]; [destruct i; discriminate Hi |].
  pose proof (filter_two Derived.isDmarcTagged (x :: l) i j a b Hij Hi Hj
                Ha Hb) as H2.
  change (filter
            (fun record =>
               Js.includes (Js.toLowerCase (Doh.data record)) "v=dmarc1")
            (x :: l))
    with (filter Derived.isDmarcTagged (x :: l)).
  destruct (filter Derived.isDmarcTagged (x :: l)) as [| first others];
    [cbn in H2; lia |].
  apply Nat.ltb_lt in H2. now rewrite H2.
Qed.

Lemma checkDmarc_multiple_records_witness :
  Dmarc.checkDmarc (Fixtures.always Cases.twoDmarcRecords) "example.com"
  = Ret {| Dmarc.isValid := false;
           Dmarc.reason := "Multiple DMARC records found";
           Dmarc.dmarc := None |}.
Proof.
  apply (checkDmarc_multiple_records (Fixtures.always Cases.twoDmarcRecords)
           "example.com" Cases.twoDmarcRecords
           [ {| Doh.data :=
                  "v=DMARC1; p=none; rua=mailto:dmarc@example.com" |};
             {| Doh.data := "v=dmarc1; p=reject" |} ]
           0 1
           {| Doh.data := "v=DMARC1; p=none; rua=mailto:dmarc@example.com" |}
           {| Doh.data := "v=dmarc1; p=reject" |});
    try reflexivity.
  discriminate.
Defined.

(** A text that holds another holds what follows its first code unit. *)
Lemma includes_tail (s sub : string) (c : ascii) :
  Js.includes s (String c sub) = true -> Js.includes s sub = true.
Proof.
  induction s as [| d s IH]; cbn [Js.includes].
  - cbn [String.prefix]. discriminate.
  - destruct (String.prefix (String c sub) (String d s)) eqn:Hp.
    + intros _. cbn [String.prefix] in Hp.
      destruct (ascii_dec c d) as [_ | _]; [| discriminate Hp].
      rewrite (includes_prefix s sub Hp).
      now destruct (String.prefix sub (String d s)).
    + intros H. rewrite (IH H).
      now destruct (String.prefix sub (String d s)).
Qed.

(** X12.  The policy tag is looked for as a piece of text, so the tag of
    the subdomain policy stands for it: when the response has status 0 and
    its one answer, free of quotes, begins in lower case with the version
    and holds the subdomain policy tag and the report tag, [checkDmarc]
    accepts it. *)
Theorem checkDmarc_subdomain_policy_accepted
  (get : Doh.Resolver) (domain : string) (response : Doh.ResponseData)
  (record : string) :
  get (Dmarc.requestPath domain) = Ret response ->
  Doh.Status response = Some 0%Z ->
  Doh.Answer response = Some [ {| Doh.data := record |} ] ->
  Js.allChars (fun c => negb (Js.isQuote c)) record = true ->
  Js.startsWith (Js.toLowerCase record) "v=dmarc1" = true ->
  Js.includes (Js.toLowerCase record) "sp=" = true ->
  Js.includes (Js.toLowerCase record) "rua=" = true ->
  Dmarc.checkDmarc get domain
  = Ret {| Dmarc.isValid := true; Dmarc.reason := "Valid DMARC record";
           Dmarc.dmarc := Some record |}.
Proof.
  intros Hg Hs HA Hq Hv Hsp Hrua. unfold Dmarc.checkDmarc.
  rewrite Hg. cbn [bind]. rewrite (statusNotZero_false _ Hs), HA.
  cbn [filter Doh.data].
  rewrite (includes_prefix _ _ Hv). cbn [length Nat.ltb Nat.leb Doh.data].
  rewrite (removeQuotes_of_clean record Hq), Hv, Hrua.
  now rewrite (includes_tail _ "p=" "s"%char Hsp).
Qed.

Lemma checkDmarc_subdomain_policy_accepted_witness :
  Dmarc.checkDmarc (Fixtures.always Cases.dmarcSubdomainPolicyOnly)
    "example.com"
  = Ret {| Dmarc.isValid := true; Dmarc.reason := "Valid DMARC record";
           Dmarc.dmarc :=
             Some "v=DMARC1; sp=none; rua=mailto:dmarc@example.com" |}.
Proof.
  exact (checkDmarc_subdomain_policy_accepted
           (Fixtures.always Cases.dmarcSubdomainPolicyOnly) "example.com"
           Cases.dmarcSubdomainPolicyOnly
           "v=DMARC1; sp=none; rua=mailto:dmarc@example.com"
           eq_refl eq_refl eq_refl eq_refl eq_refl eq_refl eq_refl).
Defined.

(** ** The verdicts of [checkMx] *)

(** A number that passes the three tests of the preference is an integer
    of the range, held exactly: one beyond 2^53 is negative or too large. *)
Lemma preference_in_range (p : Js.number) :
  (forall z, p = Js.Beyond z -> (Js.maxExact < Z.abs z)%Z) ->
  Js.isNaN p || Js.ltb p 0 || Js.gtb p 65535 = false ->
  exists z : Z, p = Js.Int z /\ (0 <= z <= 65535)%Z.
Proof.
  intros Hwf.
  destruct p as [| z | z]; cbn [Js.isNaN Js.ltb Js.gtb orb];
    [discriminate | |];
    rewrite orb_false_iff, Z.ltb_ge, Z.ltb_ge; intros [H1 H2].
  - exists z. split; [reflexivity | lia].
  - specialize (Hwf z eq_refl). unfold Js.maxExact in Hwf. lia.
Qed.

(** The preference of a parsed entry is beyond 2^53 only when the integer
    read is. *)
Lemma parseAnswer_preference (a : Doh.AnswerRecord) (m : Mx.MxEntry) :
  Mx.parseAnswer a = Ret m ->
  forall z, Mx.preference m = Js.Beyond z -> (Js.maxExact < Z.abs z)%Z.
Proof.
  unfold Mx.parseAnswer.
  destruct (Js.split " "%char (Doh.data a)) as [| p [| e l]];
    try discriminate.
  intros [= <-] z. cbn [Mx.preference]. apply parseInt10_Beyond.
Qed.

Lemma mapM_parseAnswer_preference (answer : list Doh.AnswerRecord) :
  forall mxRecords,
    mapM Mx.parseAnswer answer = Ret mxRecords ->
    Forall (fun m => forall z, Mx.preference m = Js.Beyond z ->
                               (Js.maxExact < Z.abs z)%Z) mxRecords.
Proof.
  induction answer as [| a answer IH]; intros ms; cbn [mapM].
  - intros [= <-]. constructor.
  - destruct (Mx.parseAnswer a) as [m | e] eqn:Ha; [| discriminate].
    cbn [bind].
    destruct (mapM Mx.parseAnswer answer) as [ms' | e]; [| discriminate].
    cbn [bind]. intros [= <-].
    constructor; [exact (parseAnswer_preference a m Ha) | now apply IH].
Qed.

Lemma validateRecords_valid
  (numberToString : Js.number -> string) (all records : list Mx.MxEntry) :
  Forall (fun m => forall z, Mx.preference m = Js.Beyond z ->
                             (Js.maxExact < Z.abs z)%Z) records ->
  Mx.isValid (Mx.validateRecords numberToString records all) = true ->
  Forall Derived.entryAccepted records
  /\ Mx.validateRecords numberToString records all
     = {| Mx.isValid := true; Mx.reason := "All MX records are valid";
          Mx.mx := Some all |}.
Proof.
  induction records as [| m records IH]; intros Hwf;
    cbn [Mx.validateRecords].
  - intros _. split; [constructor | reflexivity].
  - inversion Hwf as [| m' records' Hm Hrecords]; subst.
    destruct (Js.isNaN (Mx.preference m) || Js.ltb (Mx.preference m) 0
              || Js.gtb (Mx.preference m) 65535) eqn:Hp;
      [discriminate |].
    destruct (Mx.isDottedQuad (Mx.exchange m)) eqn:Hq; [discriminate |].
    destruct (Mx.isHostname (Mx.exchange m)) eqn:Hh; [| discriminate].
    cbn [negb]. intros H. destruct (IH Hrecords H) as [Hall Heq].
    split; [| exact Heq]. constructor; [| exact Hall].
    unfold Derived.entryAccepted. repeat split; try assumption.
    now apply preference_in_range.
Qed.

(** X13.  A successful result of [checkMx] comes from a response with
    status 0 whose answers all parse; it carries the parsed entries, one for
    each answer and in their order; there is at least one; no two have the
    same exchange; and each has a preference between 0 and 65535 and an
    exchange that matches the pattern of host names and is no dotted quad. *)
Theorem checkMx_valid_inversion
  (numberToString : Js.number -> string) (get : Doh.Resolver)
  (domain : string) (result : Mx.MxCheckResult) :
  Mx.checkMx numberToString get domain = Ret result ->
  Mx.isValid result = true ->
  exists (response : Doh.ResponseData) (answer : list Doh.AnswerRecord)
         (mxRecords : list Mx.MxEntry),
    get (Mx.requestPath domain) = Ret response
    /\ Doh.Status response = Some 0%Z
    /\ Doh.Answer response = Some answer
    /\ mapM Mx.parseAnswer answer = Ret mxRecords
    /\ result = {| Mx.isValid := true;
                   Mx.reason := "All MX records are valid";
                   Mx.mx := Some mxRecords |}
    /\ mxRecords <> []
    /\ NoDup (map Mx.exchange mxRecords)
    /\ Forall Derived.entryAccepted mxRecords.
Proof.
  intros Hrun Hvalid. unfold Mx.checkMx in Hrun.
  destruct (get (Mx.requestPath domain)) as [response | e] eqn:Hg;
    [| discriminate Hrun].
  cbn [bind] in Hrun.
  destruct (Doh.statusNotZero response) eqn:Hs;
    [injection Hrun as <-; discriminate Hvalid |].
  destruct (Doh.Answer response) as [answer |] eqn:HA;
    [| injection Hrun as <-; discriminate Hvalid].
  destruct (mapM Mx.parseAnswer answer) as [mxRecords | e] eqn:Hparse;
    [| discriminate Hrun].
  cbn [bind] in Hrun.
  destruct (length mxRecords =? 0)%nat eqn:Hlen;
    [injection Hrun as <-; discriminate Hvalid |].
  destruct (Mx.setSize (map Mx.exchange mxRecords) =? length mxRecords)%nat
    eqn:Hsize; cbn [negb] in Hrun;
    [| injection Hrun as <-; discriminate Hvalid].
  injection Hrun as <-.
  destruct (validateRecords_valid numberToString mxRecords mxRecords
              (mapM_parseAnswer_preference answer mxRecords Hparse) Hvalid)
    as [Hall Heq].
  exists response, answer, mxRecords.
  repeat split; try assumption.
  - now apply statusNotZero_inv.
  - intros ->. discriminate Hlen.
  - apply setSize_full_NoDup. apply Nat.eqb_eq in Hsize.
    now rewrite length_map.
Qed.

Lemma checkMx_valid_inversion_witness :
  exists (response : Doh.ResponseData) (answer : list Doh.AnswerRecord)
         (mxRecords : list Mx.MxEntry),
    Fixtures.always Cases.mxTwoRecords (Mx.requestPath "example.com")
    = Ret response
    /\ Doh.Status response = Some 0%Z
    /\ Doh.Answer response = Some answer
    /\ mapM Mx.parseAnswer answer = Ret mxRecords
    /\ {| Mx.isValid := true; Mx.reason := "All MX records are valid";
          Mx.mx := Some [ {| Mx.preference := Js.Int 10;
                             Mx.exchange := "mail.example.com" |};
                          {| Mx.preference := Js.Int 20;
                             Mx.exchange := "backup-mail.example.com" |} ] |}
       = {| Mx.isValid := true; Mx.reason := "All MX records are valid";
            Mx.mx := Some mxRecords |}
    /\ mxRecords <> []
    /\ NoDup (map Mx.exchange mxRecords)
    /\ Forall Derived.entryAccepted mxRecords.
Proof.
  exact (checkMx_valid_inversion Mx.decimalNumberToString
           (Fixtures.always Cases.mxTwoRecords) "example.com"
           {| Mx.isValid := true; Mx.reason := "All MX records are valid";
              Mx.mx := Some [ {| Mx.preference := Js.Int 10;
                                 Mx.exchange := "mail.example.com" |};
                              {| Mx.preference := Js.Int 20;
                                 Mx.exchange := "backup-mail.example.com" |} ] |}
           eq_refl eq_refl).
Defined.

(** *** Answers that parse *)

Lemma split_with_space (s : string) :
  Js.includes s " " = true ->
  exists p e l, Js.split " "%char s = p :: e :: l.
Proof.
  induction s as [| c s IH]; cbn [Js.includes]; [discriminate |].
  rewrite prefix_space. cbn [Js.split].
  destruct (Ascii.eqb c " "%char).
  - intros _. destruct (Js.split " "%char s) as [| e l] eqn:E.
    + destruct s; cbn in E; [discriminate E |].
      destruct (Ascii.eqb a " "%char); [discriminate E |].
      destruct (Js.split " "%char s); discriminate E.
    + now exists "", e, l.
  - intros H. destruct (IH H) as (p & e & l & ->).
    now exists (String c p), e, l.
Qed.

Lemma mapM_parseAnswer_Ret (answer : list Doh.AnswerRecord) :
  forallb Derived.hasSpace answer = true ->
  exists mxRecords,
    mapM Mx.parseAnswer answer = Ret mxRecords
    /\ length mxRecords = length answer.
Proof.
  induction answer as [| a answer IH]; cbn [forallb mapM].
  - intros _. now exists [].
  - rewrite andb_true_iff. intros [Ha Hrest].
    destruct (IH Hrest) as (ms & -> & Hlen).
    unfold Mx.parseAnswer at 1.
    destruct (split_with_space _ Ha) as (p & e & l & ->).
    cbn [bind]. eexists. split; [reflexivity |]. cbn [length]. now rewrite Hlen.
Qed.

Lemma forallb_false {A : Type} (f : A -> bool) (l : list A) :
  forallb f l = false -> exists a, In a l /\ f a = false.
Proof.
  induction l as [| x l IH]; cbn [forallb]; [discriminate |].
  destruct (f x) eqn:Hx.
  - intros H. destruct (IH H) as (a & Hin & Ha).
    exists a. split; [now right | exact Ha].
  - intros _. exists x. split; [now left | exact Hx].
Qed.

(** X14.  When the response has status 0 and an answer list, [checkMx]
    returns a result if and only if every answer holds a space; it throws
    otherwise, whatever the other answers are. *)
Theorem checkMx_returns_when_answers_parse
  (numberToString : Js.number -> string) (get : Doh.Resolver)
  (domain : string) (response : Doh.ResponseData)
  (answer : list Doh.AnswerRecord) :
  get (Mx.requestPath domain) = Ret response ->
  Doh.Status response = Some 0%Z ->
  Doh.Answer response = Some answer ->
  (exists result, Mx.checkMx numberToString get domain = Ret result)
  <-> forallb Derived.hasSpace answer = true.
Proof.
  intros Hg Hs HA. unfold Mx.checkMx. rewrite Hg. cbn [bind].
  rewrite (statusNotZero_false _ Hs), HA. split.
  - intros [result Hrun].
    destruct (forallb Derived.hasSpace answer) eqn:Hall; [reflexivity |].
    destruct (forallb_false _ _ Hall) as (a & Hin & Ha).
    rewrite (mapM_parseAnswer_Throw answer a Hin Ha) in Hrun.
    discriminate Hrun.
  - intros Hall.
    destruct (mapM_parseAnswer_Ret answer Hall) as (ms & -> & _).
    cbn [bind].
    destruct (length ms =? 0)%nat; [now eexists |].
    destruct (negb _); now eexists.
Qed.

Lemma checkMx_returns_when_answers_parse_witness :
  exists result,
    Mx.checkMx Mx.decimalNumberToString
      (Fixtures.always Fixtures.mxDuplicates) "example.com" = Ret result.
Proof.
  exact (proj2 (checkMx_returns_when_answers_parse Mx.decimalNumberToString
                  (Fixtures.always Fixtures.mxDuplicates) "example.com"
                  Fixtures.mxDuplicates
                  [ {| Doh.data := "70000 Mail.Example.com." |};
                    {| Doh.data := "x mail.example.com" |} ]
                  eq_refl eq_refl eq_refl) eq_refl).
Defined.

(** *** The two patterns of the exchange *)

Lemma isDigit_isAlnum (c : ascii) :
  Js.isDigit c = true -> Mx.isAlnum c = true.
Proof.
  unfold Js.isDigit, Mx.isAlnum. cbv zeta. intros ->.
  now rewrite orb_true_r.
Qed.

Lemma allChars_impl (p q : ascii -> bool) (s : string) :
  (forall c, p c = true -> q c = true) ->
  Js.allChars p s = true -> Js.allChars q s = true.
Proof.
  intros Hpq. induction s as [| c s IH]; [reflexivity |].
  cbn [Js.allChars]. rewrite !andb_true_iff. intros [Hc Hs].
  split; [now apply Hpq | now apply IH].
Qed.

Lemma lastChar_allChars (p : ascii -> bool) (s : string) :
  s <> "" -> Js.allChars p s = true ->
  exists z, Mx.lastChar s = Some z /\ p z = true.
Proof.
  induction s as [| c s IH]; intros Hne; [now elim Hne |].
  cbn [Js.allChars]. rewrite andb_true_iff. intros [Hc Hs].
  destruct s as [| d s]; [now exists c |].
  destruct (IH ltac:(discriminate) Hs) as (z & Hz & Hpz).
  exists z. split; [exact Hz | exact Hpz].
Qed.

(** A group of one to three digits is a label. *)
Lemma digits_isLabel (g : string) :
  (1 <=? String.length g)%nat && (String.length g <=? 3)%nat
  && Js.allChars Mx.isAsciiDigit g = true ->
  Mx.isLabel g = true.
Proof.
  rewrite !andb_true_iff, Nat.leb_le. intros [[H1 H3] Hd].
  apply Nat.leb_le in H3.
  destruct g as [| c rest]; [cbn in H1; lia |].
  destruct (lastChar_allChars _ (String c rest) ltac:(discriminate) Hd)
    as (z & Hz & Hdz).
  unfold Mx.isLabel. rewrite Hz.
  cbn [Js.allChars] in Hd. apply andb_true_iff in Hd.
  destruct Hd as [Hc Hrest].
  rewrite (isDigit_isAlnum c Hc), (isDigit_isAlnum z Hdz).
  assert (H63 : (String.length (String c rest) <=? 63)%nat = true)
    by (apply Nat.leb_le; lia).
  rewrite H63. cbn [andb].
  apply (allChars_impl Mx.isAsciiDigit); [| exact Hrest].
  intros x Hx. now rewrite (isDigit_isAlnum x Hx).
Qed.

(** X15.  Every text that matches the pattern of the dotted quads matches
    the pattern of the host names as well: an exchange written as an IPv4
    address is turned down by the test of the dotted quads alone, which is
    made first. *)
Theorem dotted_quad_matches_hostname (s : string) :
  Mx.isDottedQuad s = true -> Mx.isHostname s = true.
Proof.
  unfold Mx.isDottedQuad, Mx.isHostname.
  destruct (Js.split "."%char s) as [| a [| b [| c [| d [| x l]]]]];
    try discriminate.
  cbn [forallb]. intros H.
  apply andb_true_iff in H. destruct H as [Ha H].
  apply andb_true_iff in H. destruct H as [Hb H].
  apply andb_true_iff in H. destruct H as [Hc H].
  apply andb_true_iff in H. destruct H as [Hd _].
  now rewrite (digits_isLabel a Ha), (digits_isLabel b Hb),
    (digits_isLabel c Hc), (digits_isLabel d Hd).
Qed.

Lemma dotted_quad_matches_hostname_witness :
  Mx.isHostname "192.168.1.1" = true.
Proof. exact (dotted_quad_matches_hostname "192.168.1.1" eq_refl). Defined.

Lemma split_nonempty (c : ascii) (s : string) : Js.split c s <> [].
Proof.
  destruct s as [| a s]; cbn [Js.split]; [discriminate |].
  destruct (Ascii.eqb a c); [discriminate |].
  destruct (Js.split c s); discriminate.
Qed.

(** A text that ends with the separator has an empty last part. *)
Lemma split_final_separator (c : ascii) (s : string) :
  Js.split c (s ++ String c "") = (Js.split c s ++ [""])%list.
Proof.
  induction s as [| a s IH]; cbn [append Js.split].
  - now rewrite Ascii.eqb_refl.
  - rewrite IH. destruct (Ascii.eqb a c); [reflexivity |].
    pose proof (split_nonempty c s) as Hne.
    destruct (Js.split c s) as [| t ts]; [now elim Hne | reflexivity].
Qed.

Lemma isHostname_final_dot (s : string) : Mx.isHostname (s ++ ".") = false.
Proof.
  unfold Mx.isHostname. rewrite split_final_separator, forallb_app.
  cbn [forallb Mx.isLabel andb]. apply andb_false_r.
Qed.

Lemma toLowerCase_app (s t : string) :
  Js.toLowerCase (s ++ t) = Js.toLowerCase s ++ Js.toLowerCase t.
Proof.
  induction s as [| c s IH]; [reflexivity |].
  cbn [append Js.toLowerCase]. now rewrite IH.
Qed.

Lemma dropFinal_app (d : ascii) (s : string) :
  Js.dropFinal d (s ++ String d "") = s.
Proof.
  induction s as [| c s IH]; cbn [append Js.dropFinal].
  - now rewrite Ascii.eqb_refl.
  - rewrite IH. destruct s; reflexivity.
Qed.

Lemma includes_space_app (a b : string) :
  Js.includes a " " = false -> Js.includes b " " = false ->
  Js.includes (a ++ b) " " = false.
Proof.
  intros Ha Hb. induction a as [| c a IH]; [exact Hb |].
  cbn [append Js.includes] in Ha |- *. rewrite prefix_space in Ha |- *.
  destruct (Ascii.eqb c " "%char); [discriminate Ha |]. now apply IH.
Qed.

(** X16.  One final dot of an exchange is removed and no more: no text
    that ends with a dot matches the pattern of the host names, and an
    answer whose exchange ends with two dots makes [checkMx] fail, whatever
    its preference. *)
Theorem exchange_final_dots :
  (forall s : string, Mx.isHostname (s ++ ".") = false)
  /\ (forall (numberToString : Js.number -> string) (get : Doh.Resolver)
             (domain : string) (response : Doh.ResponseData)
             (p e : string),
         get (Mx.requestPath domain) = Ret response ->
         Doh.Status response = Some 0%Z ->
         Doh.Answer response
         = Some [ {| Doh.data := p ++ " " ++ e ++ ".." |} ] ->
         Js.includes p " " = false ->
         Js.includes e " " = false ->
         exists reason,
           Mx.checkMx numberToString get domain
           = Ret {| Mx.isValid := false; Mx.reason := reason;
                    Mx.mx := None |}).
Proof.
  split; [exact isHostname_final_dot |].
  intros nts get domain response p e Hg Hs HA Hp He.
  unfold Mx.checkMx. rewrite Hg. cbn [bind].
  rewrite (statusNotZero_false _ Hs), HA.
  cbn [mapM]. unfold Mx.parseAnswer. cbn [Doh.data].
  change (p ++ " " ++ e ++ "..") with (p ++ String " "%char (e ++ "..")).
  rewrite (split_at_first_space p _ Hp).
  rewrite (split_without_space (e ++ "..")
             (includes_space_app e ".." He eq_refl)).
  cbn [bind length Nat.eqb map Mx.exchange].
  change (Mx.setSize [?x]) with 1.
  assert (Hex : Js.stripTrailingDot (Js.toLowerCase (e ++ ".."))
                = Js.toLowerCase e ++ ".").
  { rewrite toLowerCase_app.
    change (Js.toLowerCase "..") with ("." ++ ".").
    unfold Js.stripTrailingDot.
    change (Js.toLowerCase e ++ "." ++ ".")
      with (Js.toLowerCase e ++ String "."%char ".").
    rewrite (append_String_assoc (Js.toLowerCase e) "."%char ".").
    apply dropFinal_app. }
  rewrite Hex.
  cbn [Nat.eqb negb Mx.validateRecords Mx.preference Mx.exchange].
  destruct (Js.isNaN (Js.parseInt10 p) || Js.ltb (Js.parseInt10 p) 0
            || Js.gtb (Js.parseInt10 p) 65535); [now eexists |].
  destruct (Mx.isDottedQuad (Js.toLowerCase e ++ ".")); [now eexists |].
  rewrite isHostname_final_dot. cbn [negb]. now eexists.
Qed.

Lemma exchange_final_dots_witness :
  exists reason,
    Mx.checkMx Mx.decimalNumberToString (Fixtures.always Cases.mxTwoDots)
      "example.com"
    = Ret {| Mx.isValid := false; Mx.reason := reason; Mx.mx := None |}.
Proof.
  exact (proj2 exchange_final_dots Mx.decimalNumberToString
           (Fixtures.always Cases.mxTwoDots) "example.com" Cases.mxTwoDots
           "10" "mail.example.com" eq_refl eq_refl eq_refl eq_refl eq_refl).
Defined.

(** *** What the parse of an answer reads *)

(** X17.  The parse of an MX answer reads its first two fields: whatever
    follows a second space has no effect on the entry. *)
Theorem parseAnswer_ignores_further_fields (p e rest : string) :
  Js.includes p " " = false ->
  Js.includes e " " = false ->
  Mx.parseAnswer {| Doh.data := p ++ " " ++ e ++ " " ++ rest |}
  = Mx.parseAnswer {| Doh.data := p ++ " " ++ e |}.
Proof.
  intros Hp He. unfold Mx.parseAnswer. cbn [Doh.data].
  change (p ++ " " ++ e ++ " " ++ rest)
    with (p ++ String " "%char (e ++ String " "%char rest)).
  change (p ++ " " ++ e) with (p ++ String " "%char e).
  rewrite !(split_at_first_space p _ Hp).
  rewrite (split_at_first_space e rest He), (split_without_space e He).
  reflexivity.
Qed.

Lemma parseAnswer_ignores_further_fields_witness :
  Mx.parseAnswer {| Doh.data := "10" ++ " " ++ "a.example" ++ " " ++ "b c" |}
  = Mx.parseAnswer {| Doh.data := "10" ++ " " ++ "a.example" |}.
Proof.
  exact (parseAnswer_ignores_further_fields "10" "a.example" "b c"
           eq_refl eq_refl).
Defined.





(** ** The excerpt of a record *)

Lemma length_app_string (s t : string) :
  String.length (s ++ t) = String.length s + String.length t.
Proof.
  induction s as [| c s IH]; [reflexivity |]. cbn. now rewrite IH.
Qed.

Lemma substringTo_length (n : nat) (s : string) :
  String.length (Js.substringTo n s) <= n.
Proof.
  revert s. induction n as [| n IH]; intros [| c s]; cbn; try lia.
  specialize (IH s). lia.
Qed.

Lemma substringTo_app (n : nat) (s t : string) :
  n <= String.length s ->
  Js.substringTo n (Js.substringTo n s ++ t) = Js.substringTo n s.
Proof.
  revert s. induction n as [| n IH]; intros [| c s] H; try reflexivity.
  - cbn in H. lia.
  - cbn [Js.substringTo append]. rewrite IH; [reflexivity |]. cbn in H. lia.
Qed.

(** X19.  The excerpt of a record has at most three code units more than
    the bound, and its code units up to the bound are those of the record. *)
Theorem truncateRecord_excerpt (record : string) (maxLength : nat) :
  String.length (Dkim.truncateRecord record maxLength) <= maxLength + 3
  /\ Js.substringTo maxLength (Dkim.truncateRecord record maxLength)
     = Js.substringTo maxLength record.
Proof.
  unfold Dkim.truncateRecord.
  destruct (String.length record <=? maxLength)%nat eqn:H.
  - apply Nat.leb_le in H. split; [lia | reflexivity].
  - apply Nat.leb_gt in H. split.
    + rewrite length_app_string.
      pose proof (substringTo_length maxLength record). cbn. lia.
    + apply substringTo_app. lia.
Qed.


(** ** Quotes and order in a DKIM record *)

Lemma removeQuotes_idempotent (s : string) :
  Js.removeQuotes (Js.removeQuotes s) = Js.removeQuotes s.
Proof. apply removeQuotes_of_clean, removeQuotes_clean. Qed.

Lemma existsb_Permutation {A : Type} (f : A -> bool) (l l' : list A) :
  Permutation l l' -> existsb f l = existsb f l'.
Proof.
  induction 1 as [| x l l' _ IH | x y l | l l' l'' _ IH1 _ IH2];
    cbn [existsb].
  - reflexivity.
  - now rewrite IH.
  - now destruct (f x), (f y).
  - congruence.
Qed.

Lemma isValidDkimRecord_dkimParts (record : string) :
  Dkim.isValidDkimRecord record
  = existsb (fun part => Js.startsWith part "v=DKIM1")
      (Derived.dkimParts record)
    && existsb (fun part => Js.startsWith part "k=")
         (Derived.dkimParts record)
    && existsb (fun part =>
                  if negb (Js.startsWith part "p=") then false
                  else (0 <? String.length
                               (Js.trim (Js.substringFrom 2 part)))%nat)
         (Derived.dkimParts record).
Proof. reflexivity. Qed.

(** X20.  The structural check of a DKIM record sees neither the quotes of
    the record nor the order of its parts: removing every quote changes no
    verdict, and two records whose trimmed parts are the same up to their
    order get the same verdict. *)
Theorem isValidDkimRecord_quotes_and_order :
  (forall record : string,
      Dkim.isValidDkimRecord (Js.removeQuotes record)
      = Dkim.isValidDkimRecord record)
  /\ (forall record record' : string,
         Permutation (Derived.dkimParts record) (Derived.dkimParts record') ->
         Dkim.isValidDkimRecord record = Dkim.isValidDkimRecord record').
Proof.
  split.
  - intros record. rewrite !isValidDkimRecord_dkimParts.
    unfold Derived.dkimParts. now rewrite removeQuotes_idempotent.
  - intros record record' H. rewrite !isValidDkimRecord_dkimParts.
    now rewrite !(existsb_Permutation _ _ _ H).
Qed.

Lemma isValidDkimRecord_quotes_and_order_witness :
  Dkim.isValidDkimRecord "v=DKIM1; k=rsa; p=KEY"
  = Dkim.isValidDkimRecord "k=rsa;p=KEY ;v=DKIM1".
Proof.
  apply (proj2 isValidDkimRecord_quotes_and_order).
  change (Permutation ["v=DKIM1"; "k=rsa"; "p=KEY"]
                      ["k=rsa"; "p=KEY"; "v=DKIM1"]).
  apply (perm_trans (perm_swap "k=rsa" "v=DKIM1" ["p=KEY"])).
  apply perm_skip. apply perm_swap.
Defined.

(** ** Answers between quotes *)

Lemma stripOuterQuotes_quoted (text : string) :
  Js.stripOuterQuotes (Derived.quoted text) = text.
Proof.
  unfold Derived.quoted, Js.stripOuterQuotes.
  rewrite Ascii.eqb_refl. apply dropFinal_app.
Qed.

Lemma filter_isSpfRecord_quoted (l : list Doh.AnswerRecord) :
  Forall (fun a => Js.stripOuterQuotes (Doh.data a) = Doh.data a) l ->
  filter Spf.isSpfRecord (map Derived.quoteAnswer l)
  = map Derived.quoteAnswer (filter Spf.isSpfRecord l).
Proof.
  induction 1 as [| a l Ha _ IH]; [reflexivity |].
  cbn [map filter]. rewrite IH.
  assert (E : Spf.isSpfRecord (Derived.quoteAnswer a) = Spf.isSpfRecord a).
  { unfold Spf.isSpfRecord, Derived.quoteAnswer. cbn [Doh.data].
    now rewrite stripOuterQuotes_quoted, Ha. }
  rewrite E. now destruct (Spf.isSpfRecord a).
Qed.

(** X21.  [checkSpf] gives the same result whether the answers come bare
    or each between two double quotes, for answers that neither begin nor
    end with a double quote of their own. *)
Theorem checkSpf_quoted_answers
  (get get' : Doh.Resolver) (domain : string) (status : option Z)
  (answer : list Doh.AnswerRecord) :
  get (Spf.requestPath domain)
  = Ret {| Doh.Status := status; Doh.Answer := Some answer |} ->
  get' (Spf.requestPath domain)
  = Ret {| Doh.Status := status;
           Doh.Answer := Some (map Derived.quoteAnswer answer) |} ->
  Forall (fun a => Js.stripOuterQuotes (Doh.data a) = Doh.data a) answer ->
  Spf.checkSpf get' domain = Spf.checkSpf get domain.
Proof.
  intros Hg Hg' Hbare. unfold Spf.checkSpf. rewrite Hg, Hg'. cbn [bind].
  unfold Doh.statusNotZero. cbn [Doh.Status Doh.Answer].
  destruct status as [[| q | q] |]; try reflexivity.
  destruct answer as [| a l]; [reflexivity |].
  change (map Derived.quoteAnswer (a :: l))
    with (Derived.quoteAnswer a :: map Derived.quoteAnswer l) at 1.
  change (Derived.quoteAnswer a :: map Derived.quoteAnswer l)
    with (map Derived.quoteAnswer (a :: l)).
  rewrite (filter_isSpfRecord_quoted (a :: l) Hbare), length_map.
  destruct (1 <? length (filter Spf.isSpfRecord (a :: l)))%nat;
    [reflexivity |].
  destruct (filter Spf.isSpfRecord (a :: l)) as [| x [| y l']] eqn:Hf;
    try reflexivity.
  assert (Hx : Js.stripOuterQuotes (Doh.data x) = Doh.data x).
  { assert (Hin : In x (filter Spf.isSpfRecord (a :: l)))
      by (rewrite Hf; now left).
    apply filter_In in Hin. destruct Hin as [Hin _].
    exact (proj1 (Forall_forall _ _) Hbare x Hin). }
  cbn [map]. unfold Derived.quoteAnswer. cbn [Doh.data].
  now rewrite stripOuterQuotes_quoted, Hx.
Qed.

Lemma checkSpf_quoted_answers_witness :
  Spf.checkSpf (Fixtures.always Cases.spfQuoted) "example.com"
  = Spf.checkSpf (Fixtures.always Cases.spfBare) "example.com".
Proof.
  apply (checkSpf_quoted_answers (Fixtures.always Cases.spfBare)
           (Fixtures.always Cases.spfQuoted) "example.com" (Some 0%Z)
           [ {| Doh.data := "v=spf1 include:_spf.google.com ~all" |} ]);
    try reflexivity.
  repeat constructor.
Defined.

(** ** The code units of an accepted exchange *)

Lemma isLabel_chars (l : string) :
  Mx.isLabel l = true ->
  Js.allChars (fun x => Mx.isAlnum x || Ascii.eqb x "-"%char) l = true.
Proof.
  unfold Mx.isLabel. destruct l as [| c rest]; [discriminate |].
  destruct (Mx.lastChar (String c rest)); [| discriminate].
  rewrite !andb_true_iff. intros [[[Hc _] _] Hrest].
  cbn [Js.allChars]. now rewrite Hc, Hrest.
Qed.

Lemma split_chars (s : string) :
  forallb (Js.allChars (fun x => Mx.isAlnum x || Ascii.eqb x "-"%char))
    (Js.split "."%char s) = true ->
  Js.allChars Derived.isHostnameChar s = true.
Proof.
  induction s as [| c s IH]; [reflexivity |].
  cbn [Js.split Js.allChars]. unfold Derived.isHostnameChar at 1.
  destruct (Ascii.eqb c "."%char) eqn:Hc.
  - cbn [forallb Js.allChars andb]. intros H.
    rewrite orb_true_r. now apply IH.
  - pose proof (split_nonempty "."%char s) as Hne.
    destruct (Js.split "."%char s) as [| t ts]; [now elim Hne |].
    cbn [forallb Js.allChars]. rewrite !andb_true_iff.
    intros [[Hok Ht] Hts]. split; [now rewrite Hok |].
    apply IH. cbn [forallb]. now rewrite Ht, Hts.
Qed.

(** X22.  A text that matches the pattern of the host names is not empty,
    begins with a letter or a digit, and holds letters, digits, hyphens and
    dots only. *)
Theorem isHostname_shape (s : string) :
  Mx.isHostname s = true ->
  (exists c rest, s = String c rest /\ Mx.isAlnum c = true)
  /\ Js.allChars Derived.isHostnameChar s = true.
Proof.
  unfold Mx.isHostname. intros H. split.
  - destruct s as [| c rest]; [discriminate H |].
    exists c, rest. split; [reflexivity |].
    cbn [Js.split] in H.
    destruct (Ascii.eqb c "."%char); [discriminate H |].
    destruct (Js.split "."%char rest) as [| t ts];
      cbn [forallb] in H; apply andb_true_iff in H; destruct H as [H _];
      unfold Mx.isLabel in H;
      destruct (Mx.lastChar _); try discriminate H;
      now repeat (apply andb_true_iff in H; destruct H as [H _]).
  - apply split_chars.
    assert (G : forall parts,
               forallb Mx.isLabel parts = true ->
               forallb (Js.allChars
                          (fun x => Mx.isAlnum x || Ascii.eqb x "-"%char))
                 parts = true).
    { induction parts as [| l ls IH]; [reflexivity |]. cbn [forallb].
      rewrite !andb_true_iff. intros [Hl Hls].
      split; [now apply isLabel_chars | now apply IH]. }
    now apply G.
Qed.

Lemma isHostname_shape_witness :
  (exists c rest, "backup-mail.example.com" = String c rest
                  /\ Mx.isAlnum c = true)
  /\ Js.allChars Derived.isHostnameChar "backup-mail.example.com" = true.
Proof. exact (isHostname_shape "backup-mail.example.com" eq_refl). Defined.
